(** * Inventory Tonic: the inventory page and its table, verified

    A shallow embedding of [src/pages/Inventory.tsx] (the React page that
    lists, filters, creates, adjusts and deletes inventory items through the
    Supabase client) and of the SQL migration that creates
    [public.inventory_items] with its row-level security policies and its
    [updated_at] trigger.

    What is modelled and what is not:
    - strings are sequences of code units below 256;
    - a Number is the exact rational value of an IEEE 754 binary64 float,
      so [parseFloat], [toFixed] and [JSON.stringify] round as they do in
      the engine;
    - a request always reaches the store and is answered by it: transport
      failures are left out, and the only errors are those of the table
      (column types, NOT NULL, primary key, row-level security);
    - the table is a list of rows in heap order; [now()] and
      [gen_random_uuid()] are inputs of each statement;
    - rendering, routing and page metadata are left out.

    Layout:
    - [JS]        the ECMAScript built-ins the page calls;
    - the row type [InventoryItem] and the pure view code ([filtered], [low],
      the arguments of the two quantity buttons);
    - [Pg]        the table, its policies, trigger and column types;
    - [Supabase]  the client calls, as a state-and-error monad over the table;
    - [Page]      the queries and mutations of the component;
    - the theorems. *)

From Stdlib Require Import List String Ascii ZArith QArith Qround Qabs Qpower.
From Stdlib Require Import Lia Lqa Bool Permutation Sorted.
Import ListNotations.

Close Scope Q_scope.
Local Open Scope string_scope.
Local Open Scope list_scope.
Local Open Scope Z_scope.

(* ================================================================== *)
(** ** ECMAScript built-ins *)
(* ================================================================== *)

Module JS.

(** Strings are sequences of code units; the model covers the code units
    below 256 (Rocq's [ascii]), where [toLowerCase] acts unit by unit. *)

(** [WhiteSpace] and [LineTerminator] code units below 256:
    TAB, LF, VT, FF, CR, SP, NBSP. *)
Definition isWhiteSpace (c : ascii) : bool :=
  let n := N_of_ascii c in
  ((9 <=? n) && (n <=? 13) || (n =? 32) || (n =? 160))%N.

Fixpoint trimStart (s : string) : string :=
  match s with
  | EmptyString => EmptyString
  | String c s' => if isWhiteSpace c then trimStart s' else s
  end.

Fixpoint trimEnd (s : string) : string :=
  match s with
  | EmptyString => EmptyString
  | String c s' =>
      match trimEnd s' with
      | EmptyString => if isWhiteSpace c then EmptyString
                       else String c EmptyString
      | t => String c t
      end
  end.

(** [String.prototype.trim] *)
Definition trim (s : string) : string := trimEnd (trimStart s).

(** Lower-case mapping of one code unit: A-Z and the Latin-1 capitals
    (U+00C0..U+00DE except the multiplication sign U+00D7). *)
Definition lowerChar (c : ascii) : ascii :=
  let n := N_of_ascii c in
  if ((65 <=? n) && (n <=? 90)
      || (192 <=? n) && (n <=? 222) && negb (n =? 215))%N
  then ascii_of_N (n + 32) else c.

(** [String.prototype.toLowerCase] *)
Fixpoint toLowerCase (s : string) : string :=
  match s with
  | EmptyString => EmptyString
  | String c s' => String (lowerChar c) (toLowerCase s')
  end.

(** [String.prototype.includes]: [q] occurs in [s] at some position. *)
Fixpoint includes (s q : string) : bool :=
  prefix q s ||
  match s with
  | EmptyString => false
  | String _ s' => includes s' q
  end.

(** Truthiness of a string: [!s] is [true] exactly on the empty string. *)
Definition truthy (s : string) : bool :=
  match s with EmptyString => false | String _ _ => true end.

(** [s || null] on strings *)
Definition or_null (s : string) : option string :=
  if truthy s then Some s else None.

(** *** Numbers

    A finite Number is kept as the rational it denotes, in lowest terms;
    [-0] is not told apart from [+0]. *)
Inductive number :=
| Num (q : Q)
| NaN
| Infinity
| NegInfinity.

Definition Number_isFinite (n : number) : bool :=
  match n with Num _ => true | _ => false end.

Definition pow2 (e : Z) : Q := Qpower (2 # 1) e.
Definition pow10 (e : Z) : Q := Qpower (10 # 1) e.

(** [floor (log2 x)] for [x > 0] *)
Definition ilog2 (x : Q) : Z :=
  let e := Z.log2 (Qnum x) - Z.log2 (Zpos (Qden x)) in
  if Qle_bool (pow2 e) x then e else e - 1.

Definition round_half_even (x : Q) : Z :=
  let f := Qfloor x in
  match Qcompare (x - inject_Z f) (1 # 2) with
  | Lt => f
  | Gt => f + 1
  | Eq => if Z.even f then f else f + 1
  end.

(** The Number value for a real: the nearest IEEE 754 binary64 value, ties
    to even; 53 significant bits, least exponent -1022 (gradual underflow),
    overflow to the infinities from 2^1024 on. *)
Definition binary64 (x : Q) : number :=
  if Qeq_bool x 0 then Num 0
  else
    let a := Qabs x in
    let e := Z.max (ilog2 a) (-1022) in
    let ulp := pow2 (e - 52) in
    let r := (inject_Z (round_half_even (a / ulp)) * ulp)%Q in
    if Qle_bool (pow2 1024) r
    then (if Qle_bool 0 x then Infinity else NegInfinity)
    else Num (Qred (if Qle_bool 0 x then r else - r)).

(** *** [parseFloat] *)

Definition digit (c : ascii) : option Z :=
  let n := N_of_ascii c in
  if ((48 <=? n) && (n <=? 57))%N then Some (Z.of_N n - 48) else None.

(** [DecimalDigits]: the longest run of digits at the head of [s], folded
    into [acc]; returns the value, how many digits were read, and the rest. *)
Fixpoint digits (acc cnt : Z) (s : string) : Z * Z * string :=
  match s with
  | EmptyString => (acc, cnt, s)
  | String c s' =>
      match digit c with
      | Some d => digits (10 * acc + d) (cnt + 1) s'
      | None => (acc, cnt, s)
      end
  end.

(** An optional sign: whether it is a minus, and the rest. *)
Definition sign (s : string) : bool * string :=
  match s with
  | String "-" s' => (true, s')
  | String "+" s' => (false, s')
  | _ => (false, s)
  end.

(** [ExponentPart], 0 when there is none (an "e" without digits is not
    part of the literal). *)
Definition exponent (s : string) : Z :=
  match s with
  | String c s' =>
      if (Ascii.eqb c "e" || Ascii.eqb c "E")%bool then
        let '(neg, s'') := sign s' in
        let '(v, cnt, _) := digits 0 0 s'' in
        if cnt =? 0 then 0 else if neg then - v else v
      else 0
  | EmptyString => 0
  end.

(** [parseFloat]: skip leading white space, read the longest prefix that is
    a [StrDecimalLiteral], [NaN] when there is none. *)
Definition parseFloat (s : string) : number :=
  let '(neg, s1) := sign (trimStart s) in
  if prefix "Infinity" s1 then (if neg then NegInfinity else Infinity)
  else
    let '(i, ni, s2) := digits 0 0 s1 in
    let '(m, nf, s3) :=
      match s2 with
      | String "." s2' => digits i 0 s2'
      | _ => (i, 0, s2)
      end in
    if ni + nf =? 0 then NaN
    else
      let e := exponent s3 in
      binary64 ((if neg then - inject_Z m else inject_Z m) * pow10 (e - nf))%Q.

(** *** [toFixed(2)] and [Number(...)] of its result

    The string [toFixed] returns is kept as what it spells. *)
Inductive numeral :=
| S_NaN
| S_Infinity
| S_NegInfinity
| S_fixed (neg : bool) (n : Z)   (* "[-]ddd.dd" with digit string n: n/100 *)
| S_toString (x : Q).            (* Number::toString(x), taken from 10^21 on *)

(** [Number.prototype.toFixed] at [fractionDigits = 2]: a non-finite value
    prints as itself; otherwise the sign is split off, and below 10^21 the
    digits are those of the integer n with n/100 nearest the magnitude, the
    larger n on a tie. *)
Definition toFixed2 (x : number) : numeral :=
  match x with
  | NaN => S_NaN
  | Infinity => S_Infinity
  | NegInfinity => S_NegInfinity
  | Num q =>
      let a := Qabs q in
      if Qle_bool (pow10 21) a then S_toString q
      else S_fixed (negb (Qle_bool 0 q)) (Qfloor (a * (100 # 1) + (1 # 2)))%Q
  end.

(** [Number(s)] on such a string; [Number::toString] round-trips. *)
Definition Number_of (s : numeral) : number :=
  match s with
  | S_NaN => NaN
  | S_Infinity => Infinity
  | S_NegInfinity => NegInfinity
  | S_fixed neg n => binary64 (if neg then - (n # 100) else (n # 100))%Q
  | S_toString x => Num x
  end.

(** *** [JSON.stringify] of a Number

    Non-finite values become [null]; a finite one is written with the
    fewest significant digits that read back as the same Number (the
    nearest such decimal when several have that many digits, the one with
    the even last digit when two are as near). The result is the decimal
    written. *)

(** [floor (log10 x)] for [x > 0] *)
Definition ilog10 (x : Q) : Z :=
  let e := (Z.log2 (Qnum x) - Z.log2 (Zpos (Qden x))) * 30103 / 100000 in
  if Qle_bool (pow10 (e + 1)) x then e + 1
  else if Qle_bool (pow10 e) x then e
  else if Qle_bool (pow10 (e - 1)) x then e - 1
  else e - 2.

Definition reads_as (x c : Q) : bool :=
  match binary64 c with Num y => Qeq_bool y x | _ => false end.

Fixpoint shortest_from (fuel : nat) (k : Z) (x : Q) : Q :=
  match fuel with
  | O => x
  | S fuel' =>
      let s := pow10 (ilog10 x - k + 1) in
      let lo := (inject_Z (Qfloor (x / s)) * s)%Q in
      let hi := (lo + s)%Q in
      match reads_as x lo, reads_as x hi with
      | true, true =>
          match Qcompare (x - lo) (hi - x) with
          | Lt => lo
          | Gt => hi
          | Eq => if Z.even (Qfloor (x / s)) then lo else hi
          end
      | true, false => lo
      | false, true => hi
      | false, false => shortest_from fuel' (k + 1) x
      end
  end.

Definition shortest_decimal (x : Q) : Q :=
  if Qeq_bool x 0 then 0%Q
  else if Qle_bool 0 x then Qred (shortest_from 17 1 x)
  else Qred (- shortest_from 17 1 (- x)).

(** [Number.isSafeInteger]: an integer of magnitude at most 2^53 - 1. *)
Definition isSafeInteger (q : Q) : bool :=
  (Zpos (Qden (Qred q)) =? 1) && (Z.abs (Qnum (Qred q)) <=? 9007199254740991).

(** A safe integer is written as its own digits. *)
Definition JSON_number (n : number) : option Q :=
  match n with
  | Num q => Some (if isSafeInteger q then Qred q else shortest_decimal q)
  | _ => None
  end.

(** [Math.max] on integers *)
Definition Math_max (a b : Z) : Z := Z.max a b.

(** [parseInt(s, 10)]: skip leading white space, an optional sign, then
    the longest run of decimal digits; [NaN] when there is none, else the
    Number for that integer. *)
Definition parseInt10 (s : string) : number :=
  let '(neg, s1) := sign (trimStart s) in
  let '(n, cnt, _) := digits 0 0 s1 in
  if cnt =? 0 then NaN
  else binary64 (inject_Z (if neg then - n else n)).

End JS.

(* ================================================================== *)
(** ** The row type *)
(* ================================================================== *)

Definition uuid := string.

(** [TIMESTAMP WITH TIME ZONE], as microseconds since the epoch. *)
Definition timestamptz := Z.

(** [DECIMAL(10,2)], as the number of hundredths. *)
Definition decimal_10_2 := Z.

(** [interface InventoryItem], which is also a row of
    [public.inventory_items]. *)
Record InventoryItem := mkItem {
  id : uuid;
  user_id : uuid;
  name : string;
  description : option string;
  sku : option string;
  category : option string;
  quantity : Z;
  unit_price : option decimal_10_2;
  low_stock_threshold : option Z;
  created_at : timestamptz;
  updated_at : timestamptz
}.

(* ================================================================== *)
(** ** The view: search filter, low-stock flag, quantity buttons *)
(* ================================================================== *)

(** [.filter(Boolean)] on the four candidate fields, followed by the cast
    [(f as string)]: null and empty fields are dropped. *)
Fixpoint filter_Boolean (fs : list (option string)) : list string :=
  match fs with
  | [] => []
  | None :: fs' => filter_Boolean fs'
  | Some s :: fs' => if JS.truthy s then s :: filter_Boolean fs'
                     else filter_Boolean fs'
  end.

(** The predicate handed to [items.filter] in [filtered]. *)
Definition matches (q : string) (it : InventoryItem) : bool :=
  existsb (fun f => JS.includes (JS.toLowerCase f) q)
    (filter_Boolean [Some (name it); sku it; category it; description it]).

(** [const filtered = useMemo(...)]; [items] is [undefined] until the query
    has data. *)
Definition filtered (items : option (list InventoryItem)) (search : string)
  : list InventoryItem :=
  match items with
  | None => []
  | Some items =>
      let q := JS.toLowerCase (JS.trim search) in
      if negb (JS.truthy q) then items
      else filter (matches q) items
  end.

(** [const low = typeof it.low_stock_threshold === "number" &&
                 it.quantity <= it.low_stock_threshold] *)
Definition low (it : InventoryItem) : bool :=
  match low_stock_threshold it with
  | Some t => quantity it <=? t
  | None => false
  end.

(** [newQty] of the "Decrease" button: [Math.max(0, it.quantity - 1)] *)
Definition decrease_newQty (it : InventoryItem) : Z :=
  JS.Math_max 0 (quantity it - 1).

(** [newQty] of the "Increase" button: [it.quantity + 1] *)
Definition increase_newQty (it : InventoryItem) : Z :=
  quantity it + 1.

(* ================================================================== *)
(** ** The store: [public.inventory_items] *)
(* ================================================================== *)

(** Results of fallible steps, with the usual bind. *)
Definition result (E A : Type) : Type := (E + A)%type.

Definition rbind {E A B} (r : result E A) (k : A -> result E B) : result E B :=
  match r with
  | inl e => inl e
  | inr a => k a
  end.

Notation "x <-? r ;; k" := (rbind r (fun x => k))
  (at level 61, r at next level, right associativity).

Module Pg.

(** SQLSTATE classes the table can answer with. *)
Inductive error :=
| invalid_text_representation     (* 22P02 *)
| numeric_value_out_of_range      (* 22003 *)
| not_null_violation              (* 23502 *)
| unique_violation                (* 23505 *)
| insufficient_privilege.         (* 42501, row-level security *)

Definition table := list InventoryItem.

(** What a statement sees of its session and of the server: [auth.uid()]
    ([None] is SQL NULL, an anonymous caller), [now()], and the value
    [gen_random_uuid()] draws. *)
Record context := mkContext {
  auth_uid : option uuid;
  now : timestamptz;
  gen_random_uuid : uuid
}.

(** [auth.uid() = user_id]; a NULL [auth.uid()] makes it not true. *)
Definition owner_is (uid : option uuid) (r : InventoryItem) : bool :=
  match uid with
  | Some u => String.eqb u (user_id r)
  | None => false
  end.

(** The four policies of the migration. *)
Definition policy_select_using := owner_is.
Definition policy_insert_check := owner_is.
Definition policy_update_using := owner_is.
Definition policy_delete_using := owner_is.

(** An UPDATE policy without WITH CHECK applies its USING expression to
    the new row as well. *)
Definition policy_update_check := policy_update_using.

(** Modelled from the spec: the body of the trigger function
    [public.update_updated_at_column()], which the migration attaches
    BEFORE UPDATE FOR EACH ROW but does not define; by the spec,
    [updated_at] is refreshed by the store itself on every update, and
    nothing else is said to change. *)
Definition update_updated_at_column (t : timestamptz) (NEW : InventoryItem)
  : InventoryItem :=
  mkItem (id NEW) (user_id NEW) (name NEW) (description NEW) (sku NEW)
         (category NEW) (quantity NEW) (unit_price NEW)
         (low_stock_threshold NEW) (created_at NEW) t.

(** *** Column input, from the decimal a JSON number spells ([None]: null) *)

(** INTEGER: digits only (a fraction or an exponent, which JSON uses from
    10^21 on, is a syntax error), within 32 bits. *)
Definition int4_in (j : option Q) : result error (option Z) :=
  match j with
  | None => inr None
  | Some d =>
      let r := Qred d in
      if negb (Zpos (Qden r) =? 1) || Qle_bool (JS.pow10 21) (Qabs r)
      then inl invalid_text_representation
      else if (- 2147483648 <=? Qnum r) && (Qnum r <=? 2147483647)
      then inr (Some (Qnum r))
      else inl numeric_value_out_of_range
  end.

(** Rounding to an integer, halves away from zero. *)
Definition round_half_away (x : Q) : Z :=
  if Qle_bool 0 x then Qfloor (x + (1 # 2))%Q
  else - Qfloor (- x + (1 # 2))%Q.

(** DECIMAL(10,2): rounded to two fractional digits, then at most eight
    digits before the point. *)
Definition decimal_10_2_in (j : option Q) : result error (option decimal_10_2) :=
  match j with
  | None => inr None
  | Some d =>
      let n := round_half_away (d * (100 # 1))%Q in
      if Z.abs n <? 10000000000 then inr (Some n)
      else inl numeric_value_out_of_range
  end.

Definition not_null {A} (v : option A) : result error A :=
  match v with
  | Some a => inr a
  | None => inl not_null_violation
  end.

(** *** INSERT *)

(** The JSON body of an insert: the columns the client names. *)
Module Body.
Record t := mk {
  user_id : uuid;
  name : string;
  description : option string;
  sku : option string;
  category : option string;
  quantity : option Q;
  unit_price : option Q;
  low_stock_threshold : option Q
}.
End Body.

(** INSERT of one row: the values are read into their column types, the
    defaults fill [id], [created_at] and [updated_at], the INSERT policy's
    WITH CHECK is applied to the new row (it reads [user_id] only, so the
    row is shown to it before its quantity is known not to be null), then
    NOT NULL and the primary key. The row is appended to the heap.
    The reference of [user_id] to [auth.users] is not checked: the table
    of users is not part of this development. *)
Definition insert (ctx : context) (b : Body.t) (tbl : table)
  : result error table :=
  q <-? int4_in (Body.quantity b) ;;
  p <-? decimal_10_2_in (Body.unit_price b) ;;
  th <-? int4_in (Body.low_stock_threshold b) ;;
  let NEW q := mkItem (gen_random_uuid ctx) (Body.user_id b) (Body.name b)
                 (Body.description b) (Body.sku b) (Body.category b)
                 q p th (now ctx) (now ctx) in
  if negb (policy_insert_check (auth_uid ctx) (NEW 0))
  then inl insufficient_privilege
  else
    q <-? not_null q ;;
    if existsb (fun r => String.eqb (id r) (gen_random_uuid ctx)) tbl
    then inl unique_violation
    else inr (tbl ++ [NEW q]).

(** *** SELECT *)

(** Rows of [tbl] the SELECT policy shows and the WHERE clause keeps. *)
Definition visible (ctx : context) (where_ : InventoryItem -> bool)
  (tbl : table) : list InventoryItem :=
  filter (fun r => policy_select_using (auth_uid ctx) r && where_ r) tbl.

(** ORDER BY created_at DESC, by insertion. *)
Fixpoint insert_desc (r : InventoryItem) (l : list InventoryItem)
  : list InventoryItem :=
  match l with
  | [] => [r]
  | x :: l' => if created_at x <=? created_at r then r :: l
               else x :: insert_desc r l'
  end.

Fixpoint order_by_created_at_desc (l : list InventoryItem)
  : list InventoryItem :=
  match l with
  | [] => []
  | r :: l' => insert_desc r (order_by_created_at_desc l')
  end.

(** *** UPDATE *)

(** Rows an UPDATE touches: those its policy's USING shows and its WHERE
    keeps. *)
Definition update_targets (ctx : context) (where_ : InventoryItem -> bool)
  (r : InventoryItem) : bool :=
  policy_update_using (auth_uid ctx) r && where_ r.

(** UPDATE ... SET ... WHERE ...: each target row is replaced by what SET
    and then the BEFORE UPDATE trigger make of it; the statement fails as a
    whole if a new row fails the policy check, or takes the primary key of
    another row. *)
Definition update (ctx : context) (set : InventoryItem -> InventoryItem)
  (where_ : InventoryItem -> bool) (tbl : table) : result error table :=
  let NEW r := update_updated_at_column (now ctx) (set r) in
  if negb (forallb (fun r => implb (update_targets ctx where_ r)
                       (policy_update_check (auth_uid ctx) (NEW r))) tbl)
  then inl insufficient_privilege
  else if existsb (fun r => update_targets ctx where_ r
                     && negb (String.eqb (id (NEW r)) (id r))
                     && existsb (fun r' => String.eqb (id r') (id (NEW r))) tbl)
            tbl
  then inl unique_violation
  else inr (map (fun r => if update_targets ctx where_ r then NEW r else r) tbl).

(** *** DELETE *)

Definition delete_targets (ctx : context) (where_ : InventoryItem -> bool)
  (r : InventoryItem) : bool :=
  policy_delete_using (auth_uid ctx) r && where_ r.

Definition delete (ctx : context) (where_ : InventoryItem -> bool)
  (tbl : table) : table :=
  filter (fun r => negb (delete_targets ctx where_ r)) tbl.

End Pg.

(* ================================================================== *)
(** ** The Supabase client *)
(* ================================================================== *)

(** The signed-in user of [useAuth]; the client sends its session with
    every request, so [auth.uid()] is this user's id. *)
Module User.
Record t := mk {
  id : uuid;
  email : string
}.
End User.

Module Supabase.

(** What the server contributes to a statement. *)
Record server := mkServer {
  now : timestamptz;
  gen_random_uuid : uuid
}.

Definition context_of (session : option User.t) (srv : server) : Pg.context :=
  Pg.mkContext (option_map User.id session) (now srv) (gen_random_uuid srv).

(** The requests that reach the store, as the client builders spell them. *)
Inductive request :=
| select_star_order_created_at_desc
| insert_ (b : Pg.Body.t)
| update_quantity_eq_id (newQty : option Q) (id : uuid)
| delete_eq_id (id : uuid).

(** The remote side: the table, and the requests received so far. *)
Record backend := mkBackend {
  table : Pg.table;
  requests : list request
}.

Definition received (rq : request) (b : backend) (tbl : Pg.table) : backend :=
  mkBackend tbl (requests b ++ [rq]).

(** [from("inventory_items").select("*").order("created_at",
    { ascending: false })], resolving to [{ data, error }]. *)
Definition select_order (session : option User.t) (srv : server) (b : backend)
  : (list InventoryItem * option Pg.error) * backend :=
  (Pg.order_by_created_at_desc
     (Pg.visible (context_of session srv) (fun _ => true) (table b)), None,
   received select_star_order_created_at_desc b (table b)).

(** [from("inventory_items").insert(body)], resolving to [{ error }]. *)
Definition insert (session : option User.t) (srv : server) (body : Pg.Body.t)
  (b : backend) : option Pg.error * backend :=
  match Pg.insert (context_of session srv) body (table b) with
  | inl e => (Some e, received (insert_ body) b (table b))
  | inr tbl => (None, received (insert_ body) b tbl)
  end.

Definition set_quantity (v : Z) (r : InventoryItem) : InventoryItem :=
  mkItem (id r) (user_id r) (name r) (description r) (sku r) (category r)
         v (unit_price r) (low_stock_threshold r) (created_at r)
         (updated_at r).

Definition eq_id (i : uuid) (r : InventoryItem) : bool := String.eqb (id r) i.

(** What the store does with [update({ quantity }).eq("id", i)]: the body
    is read into the column type first; a null only fails on a row that
    would receive it. *)
Definition pg_update_quantity (ctx : Pg.context) (newQty : option Q)
  (i : uuid) (tbl : Pg.table) : result Pg.error Pg.table :=
  v <-? Pg.int4_in newQty ;;
  match v with
  | Some z => Pg.update ctx (set_quantity z) (eq_id i) tbl
  | None => if existsb (Pg.update_targets ctx (eq_id i)) tbl
            then inl Pg.not_null_violation else inr tbl
  end.

(** [from("inventory_items").update({ quantity: newQty }).eq("id", id)] *)
Definition update_quantity (session : option User.t) (srv : server)
  (newQty : option Q) (i : uuid) (b : backend) : option Pg.error * backend :=
  match pg_update_quantity (context_of session srv) newQty i (table b) with
  | inl e => (Some e, received (update_quantity_eq_id newQty i) b (table b))
  | inr tbl => (None, received (update_quantity_eq_id newQty i) b tbl)
  end.

(** [from("inventory_items").delete().eq("id", id)] *)
Definition delete (session : option User.t) (srv : server) (i : uuid)
  (b : backend) : option Pg.error * backend :=
  (None, received (delete_eq_id i) b
           (Pg.delete (context_of session srv) (eq_id i) (table b))).

End Supabase.

(* ================================================================== *)
(** ** The page: [const Inventory = () => ...] *)
(* ================================================================== *)

(** The [useState] cells of the component. *)
Module State.
Record t := mk {
  name : string;
  sku : string;
  category : string;
  description : string;
  quantity : JS.number;
  unitPrice : string;
  threshold : JS.number;
  search : string
}.

(** The initial values handed to [useState]. *)
Definition initial : t :=
  mk "" "" "" "" (JS.Num 0) "" (JS.Num (10 # 1)) "".
End State.

(** The object literal handed to [insert] in [addItem], before it is
    serialised. *)
Module Payload.
Record t := mk {
  user_id : uuid;
  name : string;
  description : option string;
  sku : option string;
  category : option string;
  quantity : JS.number;
  unit_price : option JS.number;
  low_stock_threshold : JS.number
}.

(** [JSON.stringify] of the object: a non-finite number becomes null. *)
Definition to_json (p : t) : Pg.Body.t :=
  Pg.Body.mk (user_id p) (name p) (description p) (sku p) (category p)
    (JS.JSON_number (quantity p))
    (match unit_price p with
     | Some n => JS.JSON_number n
     | None => None
     end)
    (JS.JSON_number (low_stock_threshold p)).
End Payload.

Module Toast.
Record t := mk {
  title : string;
  description : string;
  destructive : bool
}.
End Toast.

Module Page.

(** What a [mutationFn] or [queryFn] can throw. *)
Inductive exn :=
| Error (message : string)           (* [new Error(message)] *)
| PostgrestError (e : Pg.error).     (* the [error] of a response, rethrown *)

(** The spec's names for them. *)
Definition Unauthorized : exn := Error "Not authenticated".
Definition ValidationError : exn := Error "Name is required".
Definition StoreError (e : Pg.error) : exn := PostgrestError e.

(** Async functions over the backend: a state-and-exception monad. *)
Definition M (A : Type) : Type :=
  Supabase.backend -> result exn A * Supabase.backend.

Definition ret {A} (a : A) : M A := fun b => (inr a, b).

Definition throw {A} (e : exn) : M A := fun b => (inl e, b).

Definition bind {A B} (m : M A) (k : A -> M B) : M B :=
  fun b =>
    match m b with
    | (inl e, b') => (inl e, b')
    | (inr a, b') => k a b'
    end.

(** [await] of a client call, which resolves and never rejects. *)
Definition await {A} (call : Supabase.backend -> A * Supabase.backend) : M A :=
  fun b => let (a, b') := call b in (inr a, b').

Notation "x <- m ;; k" := (bind m (fun x => k))
  (at level 61, m at next level, right associativity).

(** [err.message]. For an error of the store the text is the store's
    own, which the page passes on unread: the texts below stand for it,
    and only that they are not empty is used. *)
Definition message (e : exn) : string :=
  match e with
  | Error m => m
  | PostgrestError Pg.invalid_text_representation =>
      "invalid input syntax"
  | PostgrestError Pg.numeric_value_out_of_range =>
      "value out of range"
  | PostgrestError Pg.not_null_violation =>
      "null value violates not-null constraint"
  | PostgrestError Pg.unique_violation =>
      "duplicate key value violates unique constraint"
  | PostgrestError Pg.insufficient_privilege =>
      "new row violates row-level security policy"
  end.

(** [a || b] on strings *)
Definition or_else (a b : string) : string := if JS.truthy a then a else b.

(** What the component holds besides the backend: its state cells, whether
    the ["inventory-items"] query has been invalidated, the toasts shown. *)
Record ui := mkUi {
  state : State.t;
  invalidated : bool;
  toasts : list Toast.t
}.

Definition invalidateQueries (u : ui) : ui :=
  mkUi (state u) true (toasts u).

Definition toast (t : Toast.t) (u : ui) : ui :=
  mkUi (state u) (invalidated u) (toasts u ++ [t]).

Definition setState (f : State.t -> State.t) (u : ui) : ui :=
  mkUi (f (state u)) (invalidated u) (toasts u).

(** [useMutation]'s [mutate]: run [mutationFn]; [onSuccess] when it
    resolves, [onError] with what it threw when it rejects. *)
Definition mutate (mutationFn : M unit) (onSuccess : ui -> ui)
  (onError : exn -> ui -> ui) (w : ui * Supabase.backend)
  : ui * Supabase.backend :=
  match mutationFn (snd w) with
  | (inr _, b') => (onSuccess (fst w), b')
  | (inl e, b') => (onError e (fst w), b')
  end.

(** *** The list query *)

Definition items_queryFn (session : option User.t) (srv : Supabase.server)
  : M (list InventoryItem) :=
  r <- await (Supabase.select_order session srv) ;;
  match snd r with
  | Some e => throw (PostgrestError e)
  | None => ret (fst r)
  end.

(** [enabled: !!user && !loading] *)
Definition items_enabled (user : option User.t) (loading : bool) : bool :=
  match user with Some _ => negb loading | None => false end.

(** One fetch of [useQuery]: nothing is run while the query is disabled. *)
Definition items_query (user : option User.t) (loading : bool)
  (srv : Supabase.server) (b : Supabase.backend)
  : option (result exn (list InventoryItem)) * Supabase.backend :=
  if items_enabled user loading
  then let (r, b') := items_queryFn user srv b in (Some r, b')
  else (None, b).

(** [data: items], [undefined] without a successful fetch. *)
Definition items_of (r : option (result exn (list InventoryItem)))
  : option (list InventoryItem) :=
  match r with
  | Some (inr data) => Some data
  | _ => None
  end.

(** *** [addItem] *)

Definition addItem_payload (u : User.t) (st : State.t) : Payload.t :=
  Payload.mk
    (User.id u)
    (JS.trim (State.name st))
    (JS.or_null (JS.trim (State.description st)))
    (JS.or_null (JS.trim (State.sku st)))
    (JS.or_null (JS.trim (State.category st)))
    (if JS.Number_isFinite (State.quantity st) then State.quantity st
     else JS.Num 0)
    (if JS.truthy (State.unitPrice st)
     then Some (JS.Number_of (JS.toFixed2 (JS.parseFloat (State.unitPrice st))))
     else None)
    (if JS.Number_isFinite (State.threshold st) then State.threshold st
     else JS.Num (10 # 1)).

Definition addItem_mutationFn (user : option User.t) (srv : Supabase.server)
  (st : State.t) : M unit :=
  match user with
  | None => throw (Error "Not authenticated")
  | Some u =>
      if negb (JS.truthy (JS.trim (State.name st)))
      then throw (Error "Name is required")
      else
        error <- await (Supabase.insert user srv
                          (Payload.to_json (addItem_payload u st))) ;;
        match error with
        | Some e => throw (PostgrestError e)
        | None => ret tt
        end
  end.

Definition addItem_onSuccess (u : ui) : ui :=
  toast (Toast.mk "Item added" "New item has been added to your inventory."
           false)
    (setState (fun st =>
                 State.mk "" "" "" "" (JS.Num 0) "" (JS.Num (10 # 1))
                   (State.search st))
       (invalidateQueries u)).

Definition addItem_onError (err : exn) (u : ui) : ui :=
  toast (Toast.mk "Add failed" (or_else (message err) "Could not add item.")
           true) u.

(** The "Add Item" button: [addItem.mutate()] *)
Definition addItem_mutate (user : option User.t) (srv : Supabase.server)
  (w : ui * Supabase.backend) : ui * Supabase.backend :=
  mutate (addItem_mutationFn user srv (state (fst w)))
    addItem_onSuccess addItem_onError w.

(** *** [updateQuantity] *)

Definition updateQuantity_mutationFn (session : option User.t)
  (srv : Supabase.server) (i : uuid) (newQty : JS.number) : M unit :=
  error <- await (Supabase.update_quantity session srv
                    (JS.JSON_number newQty) i) ;;
  match error with
  | Some e => throw (PostgrestError e)
  | None => ret tt
  end.

Definition updateQuantity_onError (err : exn) (u : ui) : ui :=
  toast (Toast.mk "Update failed"
           (or_else (message err) "Could not update stock.") true) u.

Definition updateQuantity_mutate (session : option User.t)
  (srv : Supabase.server) (i : uuid) (newQty : JS.number)
  (w : ui * Supabase.backend) : ui * Supabase.backend :=
  mutate (updateQuantity_mutationFn session srv i newQty)
    invalidateQueries updateQuantity_onError w.

(** The "Decrease" and "Increase" buttons of a row. *)
Definition onClick_decrease (session : option User.t) (srv : Supabase.server)
  (it : InventoryItem) :=
  updateQuantity_mutate session srv (id it)
    (JS.Num (inject_Z (decrease_newQty it))).

Definition onClick_increase (session : option User.t) (srv : Supabase.server)
  (it : InventoryItem) :=
  updateQuantity_mutate session srv (id it)
    (JS.Num (inject_Z (increase_newQty it))).

(** *** [deleteItem] *)

Definition deleteItem_mutationFn (session : option User.t)
  (srv : Supabase.server) (i : uuid) : M unit :=
  error <- await (Supabase.delete session srv i) ;;
  match error with
  | Some e => throw (PostgrestError e)
  | None => ret tt
  end.

Definition deleteItem_onSuccess (u : ui) : ui :=
  toast (Toast.mk "Item deleted" "The item was removed from your inventory."
           false)
    (invalidateQueries u).

Definition deleteItem_onError (err : exn) (u : ui) : ui :=
  toast (Toast.mk "Delete failed"
           (or_else (message err) "Could not delete item.") true) u.

Definition deleteItem_mutate (session : option User.t)
  (srv : Supabase.server) (i : uuid) (w : ui * Supabase.backend)
  : ui * Supabase.backend :=
  mutate (deleteItem_mutationFn session srv i)
    deleteItem_onSuccess deleteItem_onError w.

(** The "Delete" button: [if (confirm(...)) deleteItem.mutate(it.id)] *)
Definition onClick_delete (session : option User.t) (srv : Supabase.server)
  (it : InventoryItem) (confirmed : bool) (w : ui * Supabase.backend)
  : ui * Supabase.backend :=
  if confirmed then deleteItem_mutate session srv (id it) w else w.

(** *** The input handlers *)

(** [onChange={(e) => setQuantity(parseInt(e.target.value || "0", 10))}] *)
Definition onChange_quantity (value : string) (u : ui) : ui :=
  setState (fun st =>
              State.mk (State.name st) (State.sku st) (State.category st)
                (State.description st) (JS.parseInt10 (or_else value "0"))
                (State.unitPrice st) (State.threshold st) (State.search st))
    u.

(** [onChange={(e) => setThreshold(parseInt(e.target.value || "0", 10))}] *)
Definition onChange_threshold (value : string) (u : ui) : ui :=
  setState (fun st =>
              State.mk (State.name st) (State.sku st) (State.category st)
                (State.description st) (State.quantity st)
                (State.unitPrice st) (JS.parseInt10 (or_else value "0"))
                (State.search st))
    u.

(** *** What the component returns *)

Inductive screen :=
| Loading_screen        (* the "Loading..." placeholder *)
| Nothing               (* [return null] *)
| Content.              (* the header, the form and the items *)

(** The two early returns of the component. The second component is the
    argument of the [navigate] call the body makes before [return null];
    it is a call made while rendering, which the router acts on only once
    the component is mounted, not a navigation that has happened. *)
Definition render (user : option User.t) (loading : bool)
  : screen * option string :=
  if loading then (Loading_screen, None)
  else match user with
       | None => (Nothing, Some "/auth")
       | Some _ => (Content, None)
       end.

(** What the items card shows: the loading line, the empty line, or one
    table row per filtered item. *)
Inductive card :=
| Loading_items
| No_items_found
| Rows (its : list InventoryItem).

Definition items_card (isLoading : bool) (items : option (list InventoryItem))
  (search : string) : card :=
  if isLoading then Loading_items
  else match filtered items search with
       | [] => No_items_found
       | its => Rows its
       end.

End Page.

(* ================================================================== *)
(** ** The dashboard page: [const Index = () => ...] *)
(* ================================================================== *)

Module Index.

(** The effect: [if (!loading && !user) navigate('/auth')]. *)
Definition effect (user : option User.t) (loading : bool) : option string :=
  if negb loading && match user with None => true | Some _ => false end
  then Some "/auth" else None.

(** What the component returns; the content shows the user's email. *)
Inductive screen :=
| Loading_screen
| Nothing
| Content (email : string).

Definition render (user : option User.t) (loading : bool) : screen :=
  if loading then Loading_screen
  else match user with
       | None => Nothing
       | Some u => Content (User.email u)
       end.

End Index.

(* ================================================================== *)
(** ** The document, and the page's metadata effect *)
(* ================================================================== *)

Module Dom.

(** An element: its local name and its content attributes, in order. *)
Record element := mkElement {
  tagName : string;
  attributes : list (string * string)
}.

(** The document: its title (the text of its [title] element), and the
    other elements below [head] and those below [body], each in tree
    order. *)
Record document := mkDocument {
  title : string;
  head : list element;
  body : list element
}.

Definition createElement (tag : string) : element := mkElement tag [].

Fixpoint get (k : string) (attrs : list (string * string)) : option string :=
  match attrs with
  | [] => None
  | (k', v) :: rest => if String.eqb k' k then Some v else get k rest
  end.

Fixpoint set (k v : string) (attrs : list (string * string))
  : list (string * string) :=
  match attrs with
  | [] => [(k, v)]
  | (k', v') :: rest => if String.eqb k' k then (k', v) :: rest
                        else (k', v') :: set k v rest
  end.

Definition getAttribute (k : string) (e : element) : option string :=
  get k (attributes e).

(** [e.setAttribute(k, v)]: the attribute is replaced where it stands, or
    added last. *)
Definition setAttribute (k v : string) (e : element) : element :=
  mkElement (tagName e) (set k v (attributes e)).

(** ASCII lower case, for the attribute values selectors compare without
    regard to case. *)
Definition asciiLowerChar (c : ascii) : ascii :=
  let n := N_of_ascii c in
  if ((65 <=? n) && (n <=? 90))%N then ascii_of_N (n + 32) else c.

Fixpoint asciiLower (s : string) : string :=
  match s with
  | EmptyString => EmptyString
  | String c s' => String (asciiLowerChar c) (asciiLower s')
  end.

(** The selector [meta[name="n"]]: the value of [name] is compared as it
    is written. *)
Definition meta_named (n : string) (e : element) : bool :=
  String.eqb (tagName e) "meta"
  && match getAttribute "name" e with
     | Some v => String.eqb v n
     | None => false
     end.

(** The selector [link[rel=canonical]]: the value of [rel] is compared
    without regard to ASCII case. *)
Definition link_canonical (e : element) : bool :=
  String.eqb (tagName e) "link"
  && match getAttribute "rel" e with
     | Some v => String.eqb (asciiLower v) "canonical"
     | None => false
     end.

(** [document.querySelector(sel)]: the first match in tree order. *)
Definition querySelector (sel : element -> bool) (d : document)
  : option element :=
  find sel (head d ++ body d).

(** The first element of [l] that [sel] matches, changed by [f]. *)
Fixpoint update_first (sel : element -> bool) (f : element -> element)
  (l : list element) : option (list element) :=
  match l with
  | [] => None
  | x :: l' => if sel x then Some (f x :: l')
               else option_map (cons x) (update_first sel f l')
  end.

(** [let tag = document.querySelector(sel);
     if (!tag) { tag = create; document.head.appendChild(tag); }
     change(tag)]: the element found is changed where it is; when there is
    none, the created one is appended to [head] and changed. *)
Definition query_or_append (sel : element -> bool) (create : element)
  (change : element -> element) (d : document) : document :=
  match update_first sel change (head d) with
  | Some h => mkDocument (title d) h (body d)
  | None =>
      match update_first sel change (body d) with
      | Some b => mkDocument (title d) (head d) b
      | None => mkDocument (title d) (head d ++ [change create]) (body d)
      end
  end.

End Dom.

Module Seo.

Definition page_title : string := "Inventory Management | Inventory Tonic".

Definition page_description : string :=
  "Manage inventory items, add products, and update stock levels.".

(** [setMeta(name, content)] of the effect. *)
Definition setMeta (name content : string) (d : Dom.document) : Dom.document :=
  Dom.query_or_append (Dom.meta_named name)
    (Dom.setAttribute "name" name (Dom.createElement "meta"))
    (Dom.setAttribute "content" content) d.

(** The canonical link: found or created with [rel = "canonical"], then
    given its [href]. *)
Definition setCanonical (href : string) (d : Dom.document) : Dom.document :=
  Dom.query_or_append Dom.link_canonical
    (Dom.setAttribute "rel" "canonical" (Dom.createElement "link"))
    (Dom.setAttribute "href" href) d.

(** The [useEffect] run on mount: the title, the description, the
    canonical link at [window.location.origin + "/inventory"]. *)
Definition effect (origin : string) (d : Dom.document) : Dom.document :=
  let d1 := Dom.mkDocument page_title (Dom.head d) (Dom.body d) in
  let d2 := setMeta "description" page_description d1 in
  setCanonical (origin ++ "/inventory")%string d2.

End Seo.

(* ================================================================== *)
(** ** Sample data *)
(* ================================================================== *)

Module Sample.

Definition alice : User.t := User.mk "user-a" "alice@example.com".
Definition bob : User.t := User.mk "user-b" "bob@example.com".

Definition blue_shirt : InventoryItem :=
  mkItem "item-1" "user-a" "Blue Shirt" None (Some "TS-1") None
         3 (Some 1999) (Some 10) 1000 1000.

Definition red_hat : InventoryItem :=
  mkItem "item-2" "user-a" "Red Hat" None (Some "H-2") None
         25 None None 2000 2500.

Definition bobs_mug : InventoryItem :=
  mkItem "item-3" "user-b" "Mug" (Some "Stoneware") None (Some "Kitchen")
         0 (Some 450) (Some 10) 1500 1500.

Definition srv : Supabase.server := Supabase.mkServer 3000 "item-4".
Definition srv' : Supabase.server := Supabase.mkServer 4000 "item-5".

Definition empty : Supabase.backend := Supabase.mkBackend [] [].

Definition stocked : Supabase.backend :=
  Supabase.mkBackend [blue_shirt; bobs_mug; red_hat] [].

Definition ui0 : Page.ui := Page.mkUi State.initial false [].

(** The form of the spec's round-trip example. *)
Definition form_19_999 : State.t :=
  State.mk "Widget" "" "" "" (JS.Num (5 # 1)) "19.999" (JS.Num (10 # 1)) "".

(** A quantity beyond 32 bits, typed into the quantity field. *)
Definition form_too_many : State.t :=
  State.mk "Widget" "" "" "" (JS.Num (3000000000 # 1)) "" (JS.Num (10 # 1)) "".

(** A document with a description already in place, and one without. *)
Definition doc_with_description : Dom.document :=
  Dom.mkDocument "Inventory Tonic"
    [Dom.mkElement "meta" [("charset", "UTF-8")];
     Dom.mkElement "meta" [("name", "description"); ("content", "Old")]]
    [Dom.mkElement "div" [("id", "root")]].

Definition doc_bare : Dom.document :=
  Dom.mkDocument "" [] [Dom.mkElement "div" [("id", "root")]].

(** An item at the top of the INTEGER range. *)
Definition full_shelf : InventoryItem :=
  mkItem "item-9" "user-a" "Nails" None None None
         2147483647 None (Some 10) 500 500.

(** A table holding that item alone. *)
Definition shelved : Supabase.backend :=
  Supabase.mkBackend [full_shelf] [].



End Sample.

(* ================================================================== *)
(** ** Vocabulary of the specification *)
(* ================================================================== *)

(** A string that is empty or made of white space only. *)
Fixpoint whitespace_only (s : string) : bool :=
  match s with
  | EmptyString => true
  | String c s' => JS.isWhiteSpace c && whitespace_only s'
  end.

(** [q] is a substring of [s]. *)
Definition occurs_in (q s : string) : Prop :=
  exists pre post, s = (pre ++ q ++ post)%string.

(** The search rule in the spec's words: one of the non-null fields among
    name, sku, category, description contains [q], case-insensitively. *)
Definition search_hit (q : string) (it : InventoryItem) : Prop :=
  exists f,
    In (Some f) [Some (name it); sku it; category it; description it]
    /\ occurs_in q (JS.toLowerCase f).

(** A request added one row to the table. *)
Definition inserts_a_record (b b' : Supabase.backend) : Prop :=
  exists r, Supabase.table b' = Supabase.table b ++ [r].

(** Newest first. *)
Definition newest_first (l : list InventoryItem) : Prop :=
  Sorted (fun a b => created_at b <= created_at a) l.

(** The rows of [tbl] that are not the caller's. *)
Definition others (uid : option uuid) (tbl : Pg.table) : Pg.table :=
  filter (fun r => negb (Pg.owner_is uid r)) tbl.

(** What an update of the quantity to [z] at time [t], by caller [uid] on
    id [i], makes of a row: the caller's row with that id gets the quantity
    and the time, any other row stays. *)
Definition written (uid : option uuid) (i : uuid) (z : Z) (t : timestamptz)
  (r : InventoryItem) : InventoryItem :=
  if Pg.owner_is uid r && Supabase.eq_id i r
  then mkItem (id r) (user_id r) (name r) (description r) (sku r)
         (category r) z (unit_price r) (low_stock_threshold r)
         (created_at r) t
  else r.

(** Whether a mutation function resolved. *)
Definition succeeded (r : result Page.exn unit) : bool :=
  match r with inr _ => true | inl _ => false end.

(** What a mutation leaves on the page, given how its function ended: the
    list is marked stale exactly when it resolved (or was stale already);
    when it was rejected, exactly one toast is added, a destructive one;
    when it resolved, at most one toast is added, and not a destructive
    one. *)
Definition feedback (r : result Page.exn unit) (before after : Page.ui)
  : Prop :=
  Page.invalidated after = Page.invalidated before || succeeded r
  /\ exists ts,
       Page.toasts after = Page.toasts before ++ ts
       /\ (List.length ts <= 1)%nat
       /\ Forall (fun t => Toast.destructive t = negb (succeeded r)) ts
       /\ (succeeded r = false -> List.length ts = 1%nat).

(** Values the INTEGER column holds. *)
Definition int4 (z : Z) : Prop := - 2147483648 <= z <= 2147483647.



(* ================================================================== *)
(** ** Strings *)
(* ================================================================== *)

Section Strings.

Lemma prefix_iff (q s : string) :
  prefix q s = true <-> exists post, s = (q ++ post)%string.
Proof.
  revert s; induction q as [|a q IH]; intros s.
  - split; [intros _; now exists s | now destruct s].
  - destruct s as [|b s]; cbn.
    + split; [discriminate | intros [post H]; discriminate].
    + destruct (ascii_dec a b) as [->|Hab].
      * rewrite IH. split; intros [post H]; exists post.
        -- now rewrite H.
        -- now injection H.
      * split; [discriminate|]. intros [post H]. injection H as E _.
        now elim Hab.
Qed.

Lemma includes_iff (s q : string) :
  JS.includes s q = true <-> occurs_in q s.
Proof.
  induction s as [|c s IH]; cbn [JS.includes].
  - rewrite orb_false_r, prefix_iff. split.
    + intros [post H]. now exists "", post.
    + intros (pre & post & H). destruct pre; [|discriminate].
      now exists post.
  - rewrite orb_true_iff, prefix_iff, IH. split.
    + intros [[post H]|(pre & post & H)].
      * now exists "", post.
      * exists (String c pre), post. cbn. now rewrite H.
    + intros (pre & post & H). destruct pre as [|c' pre]; cbn in H.
      * left. now exists post.
      * right. injection H as _ H. now exists pre, post.
Qed.

Lemma trimEnd_empty (s : string) :
  JS.trimEnd s = "" <-> whitespace_only s = true.
Proof.
  induction s as [|c s IH]; cbn; [tauto|].
  destruct (JS.trimEnd s) eqn:E.
  - destruct (JS.isWhiteSpace c); cbn.
    + tauto.
    + split; discriminate.
  - split; [discriminate|]. rewrite andb_true_iff. intros [_ H].
    apply IH in H. discriminate.
Qed.

Lemma whitespace_only_trimStart (s : string) :
  whitespace_only (JS.trimStart s) = whitespace_only s.
Proof.
  induction s as [|c s IH]; cbn; [reflexivity|].
  destruct (JS.isWhiteSpace c) eqn:E; cbn; [exact IH|].
  now rewrite E.
Qed.

Lemma trim_empty (s : string) :
  JS.trim s = "" <-> whitespace_only s = true.
Proof.
  unfold JS.trim. now rewrite trimEnd_empty, whitespace_only_trimStart.
Qed.

Lemma toLowerCase_empty (s : string) :
  JS.toLowerCase s = "" <-> s = "".
Proof. destruct s; cbn; split; congruence. Qed.

Lemma truthy_false (s : string) : JS.truthy s = false <-> s = "".
Proof. destruct s; cbn; split; congruence. Qed.

Lemma truthy_true (s : string) : JS.truthy s = true <-> s <> "".
Proof. destruct s; cbn; split; congruence. Qed.

Lemma occurs_in_nonempty (q s : string) :
  q <> "" -> occurs_in q s -> s <> "".
Proof.
  intros Hq (pre & post & ->).
  destruct pre; cbn; [|discriminate].
  destruct q; [congruence | discriminate].
Qed.

Lemma or_null_None (s : string) : JS.or_null s = None <-> s = "".
Proof.
  unfold JS.or_null. destruct s; cbn; split; congruence.
Qed.

End Strings.

(* ================================================================== *)
(** ** The search filter *)
(* ================================================================== *)

Section Filter.

Lemma filter_Boolean_In (fs : list (option string)) (f : string) :
  In f (filter_Boolean fs) <-> In (Some f) fs /\ f <> "".
Proof.
  induction fs as [|[s|] fs IH]; cbn.
  - tauto.
  - destruct (JS.truthy s) eqn:E; cbn; rewrite IH.
    + apply truthy_true in E. split.
      * intros [->|[H1 H2]]; auto.
      * intros [[H|H] H2]; [left; congruence | auto].
    + apply truthy_false in E. split.
      * intros [H1 H2]; auto.
      * intros [[H|H] H2]; [congruence | auto].
  - rewrite IH. split.
    + intros [H1 H2]; auto.
    + intros [[H|H] H2]; [discriminate | auto].
Qed.

Lemma matches_iff (q : string) (it : InventoryItem) :
  q <> "" -> (matches q it = true <-> search_hit q it).
Proof.
  intros Hq. unfold matches, search_hit. rewrite existsb_exists.
  split.
  - intros (f & Hin & Hinc). apply filter_Boolean_In in Hin as [Hin _].
    apply includes_iff in Hinc. eauto.
  - intros (f & Hin & Hocc). exists f. split.
    + apply filter_Boolean_In. split; [exact Hin|].
      intros ->. now apply (occurs_in_nonempty q "" Hq Hocc).
    + now apply includes_iff.
Qed.

Lemma search_query_empty (search : string) :
  JS.truthy (JS.toLowerCase (JS.trim search)) = false
  <-> whitespace_only search = true.
Proof. now rewrite truthy_false, toLowerCase_empty, trim_empty. Qed.

End Filter.

(* ================================================================== *)
(** ** Numbers on the wire *)
(* ================================================================== *)

Section Numbers.

Lemma Qred_inject_Z (z : Z) : Qred (inject_Z z) = inject_Z z.
Proof.
  unfold Qred, inject_Z.
  pose proof (Z.ggcd_gcd z 1) as Hg.
  pose proof (Z.ggcd_correct_divisors z 1) as Hd.
  destruct (Z.ggcd z 1) as (g & a & b). cbn [fst snd] in *.
  rewrite Z.gcd_1_r in Hg. subst g. destruct Hd as [Ha Hb].
  rewrite Z.mul_1_l in Ha, Hb. now subst a b.
Qed.

(** An integer that fits 53 bits is serialised as itself. *)
Lemma JSON_number_int (z : Z) :
  Z.abs z <= 9007199254740991 ->
  JS.JSON_number (JS.Num (inject_Z z)) = Some (inject_Z z).
Proof.
  intros H. unfold JS.JSON_number, JS.isSafeInteger.
  rewrite Qred_inject_Z. cbn [Qden Qnum inject_Z].
  replace (Z.abs z <=? 9007199254740991) with true
    by (symmetry; now apply Z.leb_le).
  reflexivity.
Qed.

(** The INTEGER column reads it back, when it fits 32 bits. *)
Lemma int4_in_int (z : Z) :
  Z.abs z <= 9007199254740991 ->
  Pg.int4_in (Some (inject_Z z)) =
  if (- 2147483648 <=? z) && (z <=? 2147483647) then inr (Some z)
  else inl Pg.numeric_value_out_of_range.
Proof.
  intros H. unfold Pg.int4_in. rewrite Qred_inject_Z.
  cbn [Qden Qnum inject_Z].
  replace (Qle_bool (JS.pow10 21) (Qabs (inject_Z z))) with false.
  - reflexivity.
  - symmetry. apply not_true_is_false. intros E. apply Qle_bool_iff in E.
    change (JS.pow10 21) with (1000000000000000000000 # 1)%Q in E.
    unfold Qle, inject_Z in E. cbn in E. lia.
Qed.

Lemma int4_in_int4 (z : Z) :
  int4 z -> Pg.int4_in (JS.JSON_number (JS.Num (inject_Z z))) = inr (Some z).
Proof.
  intros [Hlo Hhi]. rewrite JSON_number_int, int4_in_int by lia.
  replace (- 2147483648 <=? z) with true by (symmetry; now apply Z.leb_le).
  replace (z <=? 2147483647) with true by (symmetry; now apply Z.leb_le).
  reflexivity.
Qed.

(** [toFixed(2)] below 10^21: the digits are those of the integer nearest
    to a hundred times the magnitude, the larger one on a tie. *)
Lemma toFixed2_nearest (x : Q) :
  (Qabs x < JS.pow10 21)%Q ->
  let n := Qfloor (Qabs x * (100 # 1) + (1 # 2))%Q in
  JS.toFixed2 (JS.Num x) = JS.S_fixed (negb (Qle_bool 0 x)) n
  /\ (Qabs x * (100 # 1) - (1 # 2) < inject_Z n)%Q
  /\ (inject_Z n <= Qabs x * (100 # 1) + (1 # 2))%Q.
Proof.
  intros H n. repeat split.
  - unfold JS.toFixed2.
    replace (Qle_bool (JS.pow10 21) (Qabs x)) with false; [reflexivity|].
    symmetry. apply not_true_is_false. intros E. apply Qle_bool_iff in E.
    now apply Qlt_not_le in H.
  - pose proof (Qlt_floor (Qabs x * (100 # 1) + (1 # 2))%Q) as L.
    fold n in L. rewrite inject_Z_plus in L.
    change (inject_Z 1) with 1%Q in L. lra.
  - apply Qfloor_le.
Qed.

(** *** Numbers that are exactly representable *)

Lemma round_half_even_int (x : Q) (k : Z) :
  (x == inject_Z k)%Q -> JS.round_half_even x = k.
Proof.
  intros H. unfold JS.round_half_even.
  rewrite (Qfloor_comp _ _ H), Qfloor_Z.
  assert (E : (x - inject_Z k == 0)%Q) by (rewrite H; ring).
  rewrite (Qcompare_comp _ _ E _ _ (Qeq_refl (1 # 2))). reflexivity.
Qed.

Lemma pow2_pos (e : Z) : (0 < JS.pow2 e)%Q.
Proof. unfold JS.pow2. apply Qpower_0_lt. reflexivity. Qed.

Lemma pow2_Z (e : Z) : 0 <= e -> (JS.pow2 e == inject_Z (2 ^ e))%Q.
Proof.
  intros H. unfold JS.pow2. symmetry. exact (Zpower_Qpower 2 e H).
Qed.

(** A real that is a whole number of units in the last place, below the
    overflow threshold, is its own Number. *)
Lemma binary64_exact (x : Q) (k : Z) :
  ~ (x == 0)%Q ->
  (Qabs x / JS.pow2 (Z.max (JS.ilog2 (Qabs x)) (-1022) - 52)
   == inject_Z k)%Q ->
  (Qabs x < JS.pow2 1024)%Q ->
  JS.binary64 x = JS.Num (Qred x).
Proof.
  intros Hx Hk Hlt. unfold JS.binary64.
  destruct (Qeq_bool x 0) eqn:E0; [apply Qeq_bool_eq in E0; contradiction|].
  set (ulp := JS.pow2 (Z.max (JS.ilog2 (Qabs x)) (-1022) - 52)) in *.
  rewrite (round_half_even_int _ _ Hk).
  assert (Hu : (0 < ulp)%Q) by apply pow2_pos.
  assert (Hr : (inject_Z k * ulp == Qabs x)%Q).
  { rewrite <- Hk. field. intros Z0. rewrite Z0 in Hu.
    now apply Qlt_irrefl in Hu. }
  destruct (Qle_bool (JS.pow2 1024) (inject_Z k * ulp)) eqn:Eo.
  { apply Qle_bool_iff in Eo. rewrite Hr in Eo.
    now apply Qlt_not_le in Hlt. }
  f_equal. apply Qred_complete.
  destruct (Qle_bool 0 x) eqn:Es.
  - apply Qle_bool_iff in Es. rewrite Hr. now apply Qabs_pos.
  - rewrite Hr. assert (Hneg : (x <= 0)%Q).
    { apply Qnot_lt_le. intros L.
      apply Qlt_le_weak, Qle_bool_iff in L. congruence. }
    rewrite (Qabs_neg x Hneg). ring.
Qed.

Lemma ilog2_int (c : Z) : 1 <= c -> JS.ilog2 (inject_Z c) = Z.log2 c.
Proof.
  intros H. unfold JS.ilog2. cbn [Qnum Qden inject_Z].
  change (Z.log2 1) with 0. rewrite Z.sub_0_r.
  replace (Qle_bool _ _) with true; [reflexivity|].
  symmetry. apply Qle_bool_iff. rewrite pow2_Z by apply Z.log2_nonneg.
  rewrite <- Zle_Qle. apply Z.log2_spec. lia.
Qed.

(** The integers of magnitude below 2^53, those the page computes
    quantities with, are Numbers. *)
Lemma binary64_int (z : Z) :
  Z.abs z < 2 ^ 53 -> JS.binary64 (inject_Z z) = JS.Num (inject_Z z).
Proof.
  intros H. destruct (Z.eq_dec z 0) as [->|Hz]; [reflexivity|].
  rewrite <- (Qred_inject_Z z) at 2.
  set (c := Z.abs z). assert (Hc : 1 <= c) by (unfold c; lia).
  assert (He : 0 <= Z.log2 c < 53).
  { split; [apply Z.log2_nonneg|]. apply Z.log2_lt_pow2; lia. }
  apply (binary64_exact _ (c * 2 ^ (52 - Z.log2 c))).
  - unfold Qeq, inject_Z. cbn. lia.
  - change (Qabs (inject_Z z)) with (inject_Z c).
    rewrite (ilog2_int c Hc). rewrite Z.max_l by lia.
    replace (Z.log2 c - 52) with (- (52 - Z.log2 c)) by lia.
    unfold JS.pow2 at 1. rewrite Qpower_opp.
    fold (JS.pow2 (52 - Z.log2 c)).
    rewrite pow2_Z by lia. rewrite inject_Z_mult.
    field. unfold Qeq. cbn [Qnum Qden inject_Z].
    assert (P : 0 < 2 ^ (52 - Z.log2 c)) by (apply Z.pow_pos_nonneg; lia).
    revert P. generalize (2 ^ (52 - Z.log2 c)). intros. lia.
  - change (Qabs (inject_Z z)) with (inject_Z c).
    rewrite pow2_Z by lia. rewrite <- Zlt_Qlt.
    apply Z.lt_trans with (2 ^ 53); [exact H|].
    apply Z.pow_lt_mono_r; lia.
Qed.

(** *** The number model at known values *)

(** 0.1 is 0x1.999999999999ap-4. *)
Example binary64_tenth :
  JS.binary64 (1 # 10) = JS.Num (3602879701896397 # 36028797018963968).
Proof. vm_compute. reflexivity. Qed.

(** 2^53 + 1 is a tie and goes to the even neighbour; the largest double
    is kept and the next decimal overflows. *)
Example parseFloat_edges :
  JS.parseFloat "9007199254740993" = JS.Num (9007199254740992 # 1)
  /\ JS.parseFloat "1.7976931348623159e308" = JS.Infinity
  /\ JS.parseFloat "-.5e1px" = JS.Num (- (5 # 1))
  /\ JS.parseFloat "  42.50" = JS.Num (85 # 2)
  /\ JS.parseFloat "." = JS.NaN
  /\ JS.parseFloat "" = JS.NaN.
Proof. repeat split; vm_compute; reflexivity. Qed.

(** [(1.005).toFixed(2)] is "1.00", the double being just below 1.005;
    [(19.999).toFixed(2)] is "20.00"; [(-2.5).toFixed(0+2)] keeps its
    sign. *)
Example toFixed2_values :
  JS.toFixed2 (JS.parseFloat "1.005") = JS.S_fixed false 100
  /\ JS.toFixed2 (JS.parseFloat "19.999") = JS.S_fixed false 2000
  /\ JS.toFixed2 (JS.parseFloat "-2.5") = JS.S_fixed true 250
  /\ JS.Number_of (JS.toFixed2 (JS.parseFloat "19.999")) = JS.Num (20 # 1)
  /\ JS.toFixed2 (JS.parseFloat "abc") = JS.S_NaN.
Proof. repeat split; vm_compute; reflexivity. Qed.

(** [JSON.stringify(0.1 + 0.2)] is 0.30000000000000004, and a safe
    integer is written by the general rule as by the short one. *)
Example JSON_number_values :
  JS.JSON_number (JS.binary64 (1 # 10)) = Some (1 # 10)%Q
  /\ JS.JSON_number
       (JS.binary64 ((3602879701896397 # 36028797018963968)
                     + (3602879701896397 # 18014398509481984))%Q)
     = Some (7500000000000001 # 25000000000000000)%Q
  /\ JS.JSON_number JS.NaN = None
  /\ map JS.shortest_decimal
       [0; 1; 5; 10; 120; 2147483647; -2147483648; 9007199254740991]%Q
     = [0; 1; 5; 10; 120; 2147483647; -2147483648; 9007199254740991]%Q.
Proof. repeat split; vm_compute; reflexivity. Qed.

End Numbers.

(* ================================================================== *)
(** ** The table under its policies *)
(* ================================================================== *)

Section Store.

Variable ctx : Pg.context.

Lemma owner_is_Some (a : uuid) (r : InventoryItem) :
  Pg.owner_is (Some a) r = true <-> user_id r = a.
Proof.
  cbn. rewrite String.eqb_eq. split; congruence.
Qed.

Lemma owner_is_other (a : uuid) (r : InventoryItem) :
  user_id r <> a -> Pg.owner_is (Some a) r = false.
Proof.
  intros H. apply not_true_is_false. now rewrite owner_is_Some.
Qed.

Lemma visible_In (where_ : InventoryItem -> bool) (tbl : Pg.table)
  (r : InventoryItem) :
  In r (Pg.visible ctx where_ tbl) <->
  In r tbl /\ Pg.owner_is (Pg.auth_uid ctx) r = true /\ where_ r = true.
Proof.
  unfold Pg.visible, Pg.policy_select_using.
  now rewrite filter_In, andb_true_iff.
Qed.

Lemma insert_desc_perm (r : InventoryItem) (l : list InventoryItem) :
  Permutation (Pg.insert_desc r l) (r :: l).
Proof.
  induction l as [|x l IH]; cbn; [reflexivity|].
  destruct (created_at x <=? created_at r); [reflexivity|].
  rewrite IH. apply perm_swap.
Qed.

Lemma order_by_perm (l : list InventoryItem) :
  Permutation (Pg.order_by_created_at_desc l) l.
Proof.
  induction l as [|x l IH]; cbn; [reflexivity|].
  now rewrite insert_desc_perm, IH.
Qed.

Lemma insert_desc_HdRel (a r : InventoryItem) (l : list InventoryItem) :
  created_at r <= created_at a ->
  HdRel (fun a b => created_at b <= created_at a) a l ->
  HdRel (fun a b => created_at b <= created_at a) a (Pg.insert_desc r l).
Proof.
  intros Hr Hl. destruct l as [|x l]; cbn.
  - now constructor.
  - destruct (created_at x <=? created_at r); constructor;
      [exact Hr | now inversion Hl].
Qed.

Lemma insert_desc_sorted (r : InventoryItem) (l : list InventoryItem) :
  newest_first l -> newest_first (Pg.insert_desc r l).
Proof.
  unfold newest_first. induction 1 as [|x l Hs IH Hh]; cbn.
  - repeat constructor.
  - destruct (created_at x <=? created_at r) eqn:E.
    + apply Z.leb_le in E. repeat constructor; assumption.
    + apply Z.leb_gt in E. constructor; [exact IH|].
      apply insert_desc_HdRel; [lia | exact Hh].
Qed.

Lemma order_by_sorted (l : list InventoryItem) :
  newest_first (Pg.order_by_created_at_desc l).
Proof.
  induction l as [|x l IH]; cbn.
  - constructor.
  - now apply insert_desc_sorted.
Qed.

(** An UPDATE that targets no row leaves the table as it is. *)
Lemma update_no_target (set : InventoryItem -> InventoryItem)
  (where_ : InventoryItem -> bool) (tbl : Pg.table) :
  (forall r, In r tbl -> Pg.update_targets ctx where_ r = false) ->
  Pg.update ctx set where_ tbl = inr tbl.
Proof.
  intros H. unfold Pg.update.
  replace (forallb _ tbl) with true.
  - replace (existsb _ tbl) with false.
    + cbn. f_equal. rewrite <- (map_id tbl) at 2. apply map_ext_in.
      intros r Hr. now rewrite (H r Hr).
    + symmetry. apply not_true_is_false. intros E.
      apply existsb_exists in E as (r & Hr & E). now rewrite (H r Hr) in E.
  - symmetry. apply forallb_forall. intros r Hr. now rewrite (H r Hr).
Qed.

(** Setting the quantity never fails: it keeps the owner and the key. *)
Lemma update_set_quantity (z : Z) (i : uuid) (tbl : Pg.table) :
  Pg.update ctx (Supabase.set_quantity z) (Supabase.eq_id i) tbl =
  inr (map (fun r =>
              if Pg.update_targets ctx (Supabase.eq_id i) r
              then Pg.update_updated_at_column (Pg.now ctx)
                     (Supabase.set_quantity z r)
              else r) tbl).
Proof.
  unfold Pg.update.
  replace (forallb _ tbl) with true.
  - replace (existsb _ tbl) with false; [reflexivity|].
    symmetry. apply not_true_is_false. intros E.
    apply existsb_exists in E as (r & _ & E). cbn in E.
    rewrite String.eqb_refl in E. cbn in E.
    now rewrite andb_false_r in E.
  - symmetry. apply forallb_forall. intros r _.
    unfold Pg.update_targets, Pg.policy_update_check, Pg.policy_update_using.
    destruct (Pg.owner_is (Pg.auth_uid ctx) r) eqn:E; cbn; [|reflexivity].
    destruct (Supabase.eq_id i r); cbn; [|reflexivity].
    exact E.
Qed.

(** A DELETE that targets no row leaves the table as it is. *)
Lemma delete_no_target (where_ : InventoryItem -> bool) (tbl : Pg.table) :
  (forall r, In r tbl -> Pg.delete_targets ctx where_ r = false) ->
  Pg.delete ctx where_ tbl = tbl.
Proof.
  intros H. unfold Pg.delete. induction tbl as [|x tbl IH]; cbn.
  - reflexivity.
  - rewrite (H x) by now left. cbn. f_equal. apply IH.
    intros r Hr. apply H. now right.
Qed.

(** Whatever an UPDATE sets and wherever it looks, the rows of the other
    owners come out as they went in. *)
Lemma update_others (set : InventoryItem -> InventoryItem)
  (where_ : InventoryItem -> bool) (tbl tbl' : Pg.table) :
  Pg.update ctx set where_ tbl = inr tbl' ->
  others (Pg.auth_uid ctx) tbl' = others (Pg.auth_uid ctx) tbl.
Proof.
  unfold Pg.update.
  destruct (forallb _ tbl) eqn:Hchk; cbn; [|discriminate].
  destruct (existsb _ tbl); [discriminate|].
  intros E. injection E as <-.
  induction tbl as [|x tbl IH]; cbn; [reflexivity|].
  cbn in Hchk. apply andb_true_iff in Hchk as [Hx Hchk].
  specialize (IH Hchk). unfold others in IH. rewrite IH.
  unfold Pg.update_targets, Pg.policy_update_using in *.
  destruct (Pg.owner_is (Pg.auth_uid ctx) x) eqn:Ex; cbn in *.
  - destruct (where_ x); cbn in *.
    + unfold Pg.policy_update_check, Pg.policy_update_using in Hx.
      now rewrite Hx.
    + now rewrite Ex.
  - now rewrite Ex.
Qed.

Lemma delete_others (where_ : InventoryItem -> bool) (tbl : Pg.table) :
  others (Pg.auth_uid ctx) (Pg.delete ctx where_ tbl)
  = others (Pg.auth_uid ctx) tbl.
Proof.
  unfold others, Pg.delete, Pg.delete_targets, Pg.policy_delete_using.
  induction tbl as [|x tbl IH]; cbn; [reflexivity|].
  destruct (Pg.owner_is (Pg.auth_uid ctx) x) eqn:Ex; cbn.
  - destruct (where_ x); cbn; [exact IH | now rewrite Ex].
  - now rewrite Ex, IH.
Qed.

(** An INSERT that succeeds appends one row, owned by the caller. *)
Lemma insert_inr (b : Pg.Body.t) (tbl tbl' : Pg.table) :
  Pg.insert ctx b tbl = inr tbl' ->
  exists r, tbl' = tbl ++ [r]
            /\ Pg.owner_is (Pg.auth_uid ctx) r = true
            /\ user_id r = Pg.Body.user_id b.
Proof.
  unfold Pg.insert, rbind.
  destruct (Pg.int4_in (Pg.Body.quantity b)) as [|q]; [discriminate|].
  destruct (Pg.decimal_10_2_in _) as [|p]; [discriminate|].
  destruct (Pg.int4_in (Pg.Body.low_stock_threshold b)) as [|th];
    [discriminate|].
  destruct (Pg.policy_insert_check _ _) eqn:Hpol; cbn; [|discriminate].
  destruct q as [q|]; cbn; [|discriminate].
  destruct (existsb _ tbl); [discriminate|].
  intros E. injection E as <-. eexists. split; [reflexivity|].
  split; [exact Hpol | reflexivity].
Qed.

End Store.

(* ================================================================== *)
(** ** Running the page's calls *)
(* ================================================================== *)

Section Calls.

Variables (session : option User.t) (srv : Supabase.server).

Let ctx := Supabase.context_of session srv.

Lemma items_queryFn_run (b : Supabase.backend) :
  Page.items_queryFn session srv b =
  (inr (Pg.order_by_created_at_desc
          (Pg.visible ctx (fun _ => true) (Supabase.table b))),
   Supabase.received Supabase.select_star_order_created_at_desc b
     (Supabase.table b)).
Proof. reflexivity. Qed.

Lemma updateQuantity_mutationFn_run (i : uuid) (v : JS.number)
  (b : Supabase.backend) :
  Page.updateQuantity_mutationFn session srv i v b =
  let rq := Supabase.update_quantity_eq_id (JS.JSON_number v) i in
  match Supabase.pg_update_quantity ctx (JS.JSON_number v) i
          (Supabase.table b) with
  | inl e => (inl (Page.StoreError e),
              Supabase.received rq b (Supabase.table b))
  | inr tbl => (inr tt, Supabase.received rq b tbl)
  end.
Proof.
  unfold Page.updateQuantity_mutationFn, Page.bind, Page.await,
    Supabase.update_quantity. fold ctx.
  now destruct (Supabase.pg_update_quantity ctx _ i _).
Qed.

Lemma deleteItem_mutationFn_run (i : uuid) (b : Supabase.backend) :
  Page.deleteItem_mutationFn session srv i b =
  (inr tt,
   Supabase.received (Supabase.delete_eq_id i) b
     (Pg.delete ctx (Supabase.eq_id i) (Supabase.table b))).
Proof. reflexivity. Qed.

End Calls.

Lemma addItem_mutationFn_run (u : User.t) (srv : Supabase.server)
  (st : State.t) (b : Supabase.backend) :
  Page.addItem_mutationFn (Some u) srv st b =
  if negb (JS.truthy (JS.trim (State.name st)))
  then (inl Page.ValidationError, b)
  else
    let body := Payload.to_json (Page.addItem_payload u st) in
    match Pg.insert (Supabase.context_of (Some u) srv) body
            (Supabase.table b) with
    | inl e => (inl (Page.StoreError e),
                Supabase.received (Supabase.insert_ body) b
                  (Supabase.table b))
    | inr tbl => (inr tt, Supabase.received (Supabase.insert_ body) b tbl)
    end.
Proof.
  unfold Page.addItem_mutationFn.
  destruct (negb (JS.truthy (JS.trim (State.name st)))); [reflexivity|].
  unfold Page.bind, Page.await, Supabase.insert.
  now destruct (Pg.insert _ _ _).
Qed.

(* ================================================================== *)
(** ** Ownership isolation *)
(* ================================================================== *)

(** C3. A caller [A] and a row [r] of the table owned by another user [B]:
    no SELECT of [A] returns [r], whatever its WHERE clause, and neither
    does the page's list query; no INSERT of [A] creates a row owned by
    [B]; no UPDATE and no DELETE of [A] targets [r], and whatever they set
    or match, the rows that are not [A]'s, [r] among them, are left as
    they were. This is the table's own behaviour, for every statement. *)
Theorem ownership_isolation (A B : uuid) (ctx : Pg.context)
  (tbl : Pg.table) (r : InventoryItem) :
  A <> B -> Pg.auth_uid ctx = Some A -> In r tbl -> user_id r = B ->
  (forall where_,
      ~ In r (Pg.order_by_created_at_desc (Pg.visible ctx where_ tbl)))
  /\ (forall u srv b, User.id u = A -> Supabase.table b = tbl ->
      exists l, fst (Page.items_queryFn (Some u) srv b) = inr l /\ ~ In r l)
  /\ (forall body, Pg.Body.user_id body = B ->
      exists e, Pg.insert ctx body tbl = inl e)
  /\ (forall set where_,
      Pg.update_targets ctx where_ r = false
      /\ forall tbl', Pg.update ctx set where_ tbl = inr tbl' ->
           others (Some A) tbl' = others (Some A) tbl /\ In r tbl')
  /\ (forall where_,
      Pg.delete_targets ctx where_ r = false
      /\ others (Some A) (Pg.delete ctx where_ tbl) = others (Some A) tbl
      /\ In r (Pg.delete ctx where_ tbl)).
Proof.
  intros HAB HA Hin HB.
  assert (Hown : Pg.owner_is (Pg.auth_uid ctx) r = false).
  { rewrite HA. apply owner_is_other. congruence. }
  assert (Hothers : In r (others (Some A) tbl)).
  { unfold others. apply filter_In. rewrite <- HA, Hown. auto. }
  split; [|split; [|split; [|split]]].
  - intros where_ H.
    apply (Permutation_in _ (order_by_perm _)) in H.
    apply visible_In in H as (_ & H & _). congruence.
  - intros u srv b Hu Hb. rewrite items_queryFn_run. cbn [fst].
    eexists. split; [reflexivity|]. intros H.
    apply (Permutation_in _ (order_by_perm _)) in H.
    apply visible_In in H as (_ & H & _). cbn in H. rewrite Hu in H.
    rewrite HA in Hown. cbn in Hown. congruence.
  - intros body Hbody.
    destruct (Pg.insert ctx body tbl) as [e|tbl'] eqn:E; [now exists e|].
    apply insert_inr in E as (r' & _ & Ho & Hu).
    rewrite HA in Ho. apply owner_is_Some in Ho. congruence.
  - intros set where_. split.
    + unfold Pg.update_targets, Pg.policy_update_using. now rewrite Hown.
    + intros tbl' E. apply update_others in E. rewrite HA in E.
      split; [exact E|]. rewrite <- E in Hothers.
      now apply filter_In in Hothers.
  - intros where_. split; [|split].
    + unfold Pg.delete_targets, Pg.policy_delete_using. now rewrite Hown.
    + rewrite <- HA. apply delete_others.
    + pose proof (delete_others ctx where_ tbl) as E. rewrite HA in E.
      rewrite <- E in Hothers. now apply filter_In in Hothers.
Qed.

(** C3, at the sample table: Alice and Bob's mug. *)
Lemma ownership_isolation_witness :
  let ctx := Supabase.context_of (Some Sample.alice) Sample.srv in
  ~ In Sample.bobs_mug
      (Pg.order_by_created_at_desc
         (Pg.visible ctx (fun _ => true) (Supabase.table Sample.stocked))).
Proof.
  intros ctx.
  refine (proj1 (ownership_isolation "user-a" "user-b" ctx
                   (Supabase.table Sample.stocked) Sample.bobs_mug
                   _ _ _ _) (fun _ => true)).
  - discriminate.
  - reflexivity.
  - cbn. tauto.
  - reflexivity.
Defined.

(* ================================================================== *)
(** ** The list query *)
(* ================================================================== *)

(** C8, as amended. For a signed-in caller (and [loading] over) the list
    query resolves to all and only the caller's rows, newest first, having
    sent one select. With no caller the query is disabled: nothing is
    sent, nothing is thrown, there are no items; and the query function
    itself, run without a session, resolves to the empty list. *)
Theorem list_own_rows_newest_first (u : User.t) (srv : Supabase.server)
  (b : Supabase.backend) :
  (exists l,
      Page.items_query (Some u) false srv b =
      (Some (inr l),
       Supabase.received Supabase.select_star_order_created_at_desc b
         (Supabase.table b))
      /\ Permutation l
           (filter (fun r => String.eqb (User.id u) (user_id r))
              (Supabase.table b))
      /\ (forall r, In r l <->
                    In r (Supabase.table b) /\ user_id r = User.id u)
      /\ newest_first l)
  /\ (forall loading,
         Page.items_query None loading srv b = (None, b)
         /\ Page.items_of (fst (Page.items_query None loading srv b)) = None)
  /\ fst (Page.items_queryFn None srv b) = inr [].
Proof.
  split; [|split].
  - exists (Pg.order_by_created_at_desc
              (Pg.visible (Supabase.context_of (Some u) srv) (fun _ => true)
                 (Supabase.table b))).
    split; [reflexivity|]. split; [|split].
    + rewrite order_by_perm. unfold Pg.visible, Pg.policy_select_using.
      cbn. erewrite filter_ext; [reflexivity|].
      intros r. now rewrite andb_true_r.
    + intros r. split.
      * intros H. apply (Permutation_in _ (order_by_perm _)) in H.
        apply visible_In in H as (H1 & H2 & _).
        apply owner_is_Some in H2. auto.
      * intros [H1 H2].
        apply (Permutation_in _ (Permutation_sym (order_by_perm _))).
        apply visible_In. repeat split; [exact H1|].
        now apply owner_is_Some.
    + apply order_by_sorted.
  - intros loading. split; reflexivity.
  - rewrite items_queryFn_run. cbn [fst]. unfold Pg.visible. cbn.
    induction (Supabase.table b) as [|x l IH]; [reflexivity | exact IH].
Qed.

(** C8 as stated fails: with no caller, the list neither runs nor throws,
    and the query function run without a session returns the empty list
    instead of failing with [Unauthorized]. *)
Lemma list_without_caller_does_not_fail :
  fst (Page.items_query None false Sample.srv Sample.stocked) = None
  /\ fst (Page.items_queryFn None Sample.srv Sample.stocked) = inr []
  /\ ~ (fst (Page.items_queryFn None Sample.srv Sample.stocked)
        = inl Page.Unauthorized)
  /\ ~ (fst (Page.items_query None false Sample.srv Sample.stocked)
        = Some (inl Page.Unauthorized)).
Proof. repeat split; discriminate. Qed.

(* ================================================================== *)
(** ** Updates and deletes that reach no row *)
(* ================================================================== *)

(** C2, as amended. When no row with the given id is the caller's (it is
    another user's, or there is none), UpdateQuantity with a storable
    quantity and Delete send their request, leave the table as it was and
    resolve without error: the mutation's success handler runs, and no
    [StoreError] is raised. *)
Theorem zero_rows_is_success (session : option User.t)
  (srv : Supabase.server) (i : uuid) (z : Z) (w : Page.ui * Supabase.backend) :
  (forall r, In r (Supabase.table (snd w)) -> id r = i ->
             Pg.owner_is (option_map User.id session) r = false) ->
  int4 z ->
  Page.updateQuantity_mutationFn session srv i (JS.Num (inject_Z z)) (snd w)
  = (inr tt,
     Supabase.received (Supabase.update_quantity_eq_id (Some (inject_Z z)) i)
       (snd w) (Supabase.table (snd w)))
  /\ Page.deleteItem_mutationFn session srv i (snd w)
     = (inr tt,
        Supabase.received (Supabase.delete_eq_id i) (snd w)
          (Supabase.table (snd w)))
  /\ fst (Page.updateQuantity_mutate session srv i (JS.Num (inject_Z z)) w)
     = Page.invalidateQueries (fst w)
  /\ fst (Page.deleteItem_mutate session srv i w)
     = Page.deleteItem_onSuccess (fst w).
Proof.
  intros Hno Hz.
  assert (Hu : forall r, In r (Supabase.table (snd w)) ->
            Pg.update_targets (Supabase.context_of session srv)
              (Supabase.eq_id i) r = false).
  { intros r Hr. unfold Pg.update_targets, Pg.policy_update_using,
      Supabase.eq_id. cbn.
    destruct (String.eqb (id r) i) eqn:E; [|apply andb_false_r].
    apply String.eqb_eq in E. now rewrite (Hno r Hr E). }
  assert (E1 : Page.updateQuantity_mutationFn session srv i
                 (JS.Num (inject_Z z)) (snd w)
               = (inr tt,
                  Supabase.received
                    (Supabase.update_quantity_eq_id (Some (inject_Z z)) i)
                    (snd w) (Supabase.table (snd w)))).
  { rewrite updateQuantity_mutationFn_run.
    unfold Supabase.pg_update_quantity.
    rewrite (int4_in_int4 z Hz). cbn [rbind].
    rewrite update_no_target by exact Hu.
    cbv zeta. rewrite JSON_number_int; [reflexivity|].
    destruct Hz. lia. }
  assert (E2 : Page.deleteItem_mutationFn session srv i (snd w)
               = (inr tt,
                  Supabase.received (Supabase.delete_eq_id i) (snd w)
                    (Supabase.table (snd w)))).
  { rewrite deleteItem_mutationFn_run. rewrite delete_no_target;
      [reflexivity|]. exact Hu. }
  split; [exact E1 | split; [exact E2 | split]].
  - unfold Page.updateQuantity_mutate, Page.mutate. now rewrite E1.
  - unfold Page.deleteItem_mutate, Page.mutate. now rewrite E2.
Qed.

(** C2, at the sample table: Alice acts on Bob's mug. *)
Lemma zero_rows_is_success_witness :
  fst (Page.deleteItem_mutate (Some Sample.alice) Sample.srv "item-3"
         (Sample.ui0, Sample.stocked))
  = Page.deleteItem_onSuccess Sample.ui0.
Proof.
  refine (proj2 (proj2 (proj2
    (zero_rows_is_success (Some Sample.alice) Sample.srv "item-3" 7
       (Sample.ui0, Sample.stocked) _ _)))).
  - intros r [<-|[<-|[<-|[]]]]; cbn; intros E;
      [discriminate E | reflexivity | discriminate E].
  - unfold int4. lia.
Defined.

(** C2 as stated fails: Alice's update and delete of Bob's mug raise no
    [StoreError]; both resolve, the delete even announces "Item deleted",
    and the mug is still in the table with its quantity. *)
Lemma zero_rows_raise_no_StoreError :
  let w := (Sample.ui0, Sample.stocked) in
  let up := Page.updateQuantity_mutationFn (Some Sample.alice) Sample.srv
              "item-3" (JS.Num (7 # 1)) Sample.stocked in
  let del := Page.deleteItem_mutationFn (Some Sample.alice) Sample.srv
               "item-3" Sample.stocked in
  (~ exists e, fst up = inl (Page.StoreError e))
  /\ (~ exists e, fst del = inl (Page.StoreError e))
  /\ fst up = inr tt /\ fst del = inr tt
  /\ Supabase.table (snd up) = Supabase.table Sample.stocked
  /\ Supabase.table (snd del) = Supabase.table Sample.stocked
  /\ Page.toasts
       (fst (Page.onClick_delete (Some Sample.alice) Sample.srv
               Sample.bobs_mug true w))
     = [Toast.mk "Item deleted" "The item was removed from your inventory."
          false].
Proof.
  cbv zeta. split; [|split]; [intros [e H]; vm_compute in H; discriminate ..|].
  repeat split; vm_compute; reflexivity.
Qed.

(* ================================================================== *)
(** ** Repeating a quantity update *)
(* ================================================================== *)

Section Idempotence.





Variables (session : option User.t) (i : uuid).

Let uid := option_map User.id session.



(** The table after one [updateQuantity]: rewritten when the store reads
    the value as an integer, untouched otherwise. *)
Lemma table_after_updateQuantity (srv : Supabase.server) (v : JS.number)
  (b : Supabase.backend) :
  Supabase.table (snd (Page.updateQuantity_mutationFn session srv i v b)) =
  match Pg.int4_in (JS.JSON_number v) with
  | inr (Some z) => map (written uid i z (Supabase.now srv)) (Supabase.table b)
  | _ => Supabase.table b
  end.
Proof.
  rewrite updateQuantity_mutationFn_run. cbv zeta.
  unfold Supabase.pg_update_quantity.
  destruct (Pg.int4_in (JS.JSON_number v)) as [e|[z|]]; cbn [rbind].
  - reflexivity.
  - rewrite update_set_quantity. reflexivity.
  - now destruct (existsb _ _).
Qed.

Lemma result_of_updateQuantity (srv : Supabase.server) (z : Z)
  (b : Supabase.backend) :
  int4 z ->
  fst (Page.updateQuantity_mutationFn session srv i (JS.Num (inject_Z z)) b)
  = inr tt.
Proof.
  intros Hz. rewrite updateQuantity_mutationFn_run. cbv zeta.
  unfold Supabase.pg_update_quantity.
  rewrite (int4_in_int4 z Hz). cbn [rbind].
  now rewrite update_set_quantity.
Qed.

End Idempotence.



(** What the store answers to a whole number outside the INTEGER
    range. *)
Lemma updateQuantity_out_of_range (session : option User.t)
  (srv : Supabase.server) (i : uuid) (z : Z) (b : Supabase.backend) :
  ~ int4 z -> Z.abs z <= 9007199254740991 ->
  Page.updateQuantity_mutationFn session srv i (JS.Num (inject_Z z)) b
  = (inl (Page.StoreError Pg.numeric_value_out_of_range),
     Supabase.received
       (Supabase.update_quantity_eq_id (Some (inject_Z z)) i) b
       (Supabase.table b)).
Proof.
  intros Hz Hs. rewrite updateQuantity_mutationFn_run. cbv zeta.
  unfold Supabase.pg_update_quantity.
  rewrite JSON_number_int, int4_in_int by exact Hs.
  destruct ((- 2147483648 <=? z) && (z <=? 2147483647)) eqn:E;
    [|reflexivity].
  exfalso. apply Hz. apply andb_true_iff in E as [E1 E2].
  apply Z.leb_le in E1, E2. now split.
Qed.




(* ================================================================== *)
(** ** Creating an item *)
(* ================================================================== *)

Lemma app_one_neq {X} (l : list X) (x : X) : l ++ [x] <> l.
Proof.
  intros H. apply (f_equal (@List.length X)) in H.
  rewrite length_app in H. cbn in H. lia.
Qed.

Lemma int4_in_error (j : option Q) (e : Pg.error) :
  Pg.int4_in j = inl e -> e <> Pg.insufficient_privilege.
Proof.
  unfold Pg.int4_in. destruct j as [d|]; [|discriminate].
  destruct (_ || _); [intros [= <-]; discriminate|].
  destruct (_ && _); [discriminate | intros [= <-]; discriminate].
Qed.

Lemma decimal_10_2_in_error (j : option Q) (e : Pg.error) :
  Pg.decimal_10_2_in j = inl e -> e <> Pg.insufficient_privilege.
Proof.
  unfold Pg.decimal_10_2_in. destruct j as [d|]; [|discriminate].
  destruct (_ <? _); [discriminate | intros [= <-]; discriminate].
Qed.

(** The INSERT policy never stands in the way of the page's own insert:
    the row carries the caller's id. *)
Lemma addItem_passes_policy (u : User.t) (srv : Supabase.server)
  (st : State.t) (tbl : Pg.table) :
  Pg.insert (Supabase.context_of (Some u) srv)
    (Payload.to_json (Page.addItem_payload u st)) tbl
  <> inl Pg.insufficient_privilege.
Proof.
  set (body := Payload.to_json (Page.addItem_payload u st)).
  unfold Pg.insert, rbind.
  destruct (Pg.int4_in (Pg.Body.quantity body)) as [e|q] eqn:Eq.
  { intros [= ->]. now apply int4_in_error in Eq. }
  destruct (Pg.decimal_10_2_in (Pg.Body.unit_price body)) as [e|p] eqn:Ep.
  { intros [= ->]. now apply decimal_10_2_in_error in Ep. }
  destruct (Pg.int4_in (Pg.Body.low_stock_threshold body)) as [e|th] eqn:Et.
  { intros [= ->]. now apply int4_in_error in Et. }
  unfold Pg.policy_insert_check. cbn. rewrite String.eqb_refl. cbn.
  destruct q; cbn; [|discriminate].
  destruct (existsb _ tbl); discriminate.
Qed.

(** C1, as amended. For a signed-in caller: when the trimmed name is
    empty, Create throws the validation error with the backend untouched
    (no request sent, no row written); otherwise it sends exactly one
    insert, and its outcome is the store's: success with the store's new
    table, or the store's error rethrown and the table as it was. So a
    record is inserted iff the trimmed name is non-empty and the store
    accepts the insert. *)
Theorem addItem_creates (u : User.t) (srv : Supabase.server) (st : State.t)
  (b : Supabase.backend) :
  let nm := JS.trim (State.name st) in
  let body := Payload.to_json (Page.addItem_payload u st) in
  let answer := Pg.insert (Supabase.context_of (Some u) srv) body
                  (Supabase.table b) in
  let run := Page.addItem_mutationFn (Some u) srv st b in
  (nm = "" -> run = (inl Page.ValidationError, b))
  /\ (nm <> "" ->
      Supabase.requests (snd run)
      = Supabase.requests b ++ [Supabase.insert_ body]
      /\ match answer with
         | inr tbl => fst run = inr tt /\ Supabase.table (snd run) = tbl
         | inl e => fst run = inl (Page.StoreError e)
                    /\ Supabase.table (snd run) = Supabase.table b
         end)
  /\ (inserts_a_record b (snd run)
      <-> nm <> "" /\ exists tbl, answer = inr tbl).
Proof.
  intros nm body answer run.
  assert (R := addItem_mutationFn_run u srv st b).
  fold run nm in R. cbv zeta in R. fold body answer in R.
  destruct (JS.truthy nm) eqn:T; cbn [negb] in R.
  - apply truthy_true in T.
    split; [intros E; now elim T|].
    split.
    + intros _. rewrite R. destruct answer; cbn; auto.
    + unfold inserts_a_record. rewrite R. split.
      * intros [r H]. split; [exact T|].
        destruct answer as [e|tbl]; cbn in H; [|now exists tbl].
        symmetry in H. now apply app_one_neq in H.
      * intros [_ [tbl E]]. rewrite E. cbn.
        apply insert_inr in E as (r & -> & _). now exists r.
  - apply truthy_false in T.
    split; [intros _; exact R|].
    split; [intros E; now elim E|].
    unfold inserts_a_record. rewrite R. cbn. split.
    + intros [r H]. symmetry in H. now apply app_one_neq in H.
    + intros [E _]. now elim E.
Qed.

(** C1, at the spec's sample form: the name is non-empty and the store
    accepts, so a record is inserted. *)
Lemma addItem_creates_witness :
  inserts_a_record Sample.empty
    (snd (Page.addItem_mutationFn (Some Sample.alice) Sample.srv
            Sample.form_19_999 Sample.empty)).
Proof.
  apply (proj2 (proj2 (addItem_creates Sample.alice Sample.srv
                         Sample.form_19_999 Sample.empty))).
  split; [discriminate|]. eexists. vm_compute. reflexivity.
Defined.

(** C1 as stated fails: the name "Widget" is non-empty after trimming, yet
    no record is inserted, because the quantity 3000000000 does not fit
    the INTEGER column and the store rejects the row. *)
Lemma addItem_nonempty_name_without_record :
  let run := Page.addItem_mutationFn (Some Sample.alice) Sample.srv
               Sample.form_too_many Sample.empty in
  JS.trim (State.name Sample.form_too_many) <> ""
  /\ fst run = inl (Page.StoreError Pg.numeric_value_out_of_range)
  /\ Supabase.table (snd run) = []
  /\ ~ (inserts_a_record Sample.empty (snd run)
        <-> JS.trim (State.name Sample.form_too_many) <> "").
Proof.
  cbv zeta. split; [discriminate|]. split; [vm_compute; reflexivity|].
  split; [vm_compute; reflexivity|].
  intros [_ H]. destruct H as [r H]; [discriminate|].
  vm_compute in H. destruct r; discriminate H.
Qed.

(** C10. After a Create that succeeds, the form cells are back at their
    defaults: name, sku, category, description and unitPrice empty,
    quantity 0, threshold 10. After a Create that fails, whatever it threw,
    every cell is as it was. *)
Theorem addItem_resets_form (user : option User.t) (srv : Supabase.server)
  (w : Page.ui * Supabase.backend) :
  let run := Page.addItem_mutationFn user srv (Page.state (fst w)) (snd w) in
  let st' := Page.state (fst (Page.addItem_mutate user srv w)) in
  (fst run = inr tt ->
     State.name st' = "" /\ State.sku st' = "" /\ State.category st' = ""
     /\ State.description st' = "" /\ State.unitPrice st' = ""
     /\ State.quantity st' = JS.Num 0
     /\ State.threshold st' = JS.Num (10 # 1))
  /\ (forall e, fst run = inl e -> st' = Page.state (fst w)).
Proof.
  intros run st'. subst st'. unfold Page.addItem_mutate, Page.mutate.
  fold run. destruct run as [[e|[]] b']; cbn [fst].
  - split; [discriminate|]. intros _ _. reflexivity.
  - split; [|discriminate]. intros _. cbn. repeat split.
Qed.

(** C10, at the sample form: the insert succeeds and the form is reset. *)
Lemma addItem_resets_form_witness :
  State.name
    (Page.state
       (fst (Page.addItem_mutate (Some Sample.alice) Sample.srv
               (Page.mkUi Sample.form_19_999 false [], Sample.empty)))) = "".
Proof.
  refine (proj1 (proj1
    (addItem_resets_form (Some Sample.alice) Sample.srv
       (Page.mkUi Sample.form_19_999 false [], Sample.empty)) _)).
  vm_compute. reflexivity.
Defined.

(* ================================================================== *)
(** ** What Create sends *)
(* ================================================================== *)

Lemma or_null_trim (s : string) :
  JS.or_null (JS.trim s)
  = if whitespace_only s then None else Some (JS.trim s).
Proof.
  unfold JS.or_null. destruct (whitespace_only s) eqn:E.
  - apply trim_empty in E. now rewrite E.
  - destruct (JS.truthy (JS.trim s)) eqn:T; [reflexivity|].
    apply truthy_false, trim_empty in T. congruence.
Qed.

(** C7. What Create puts in the inserted object:
    - an optional text field (description, sku, category) that is empty,
      or blank, becomes null, and is trimmed otherwise;
    - quantity and threshold are kept when finite and become 0 and 10 when
      not;
    - an empty unit price becomes null; a unit price that reads as the
      number [x] becomes the Number spelled by [x.toFixed(2)]: below 10^21
      that is n/100 for the integer n nearest to 100|x| (the larger on a
      tie), with the sign of [x], so it is [x] rounded to two decimals;
      from 10^21 on, where a Number has no fractional part, it is [x].
    And for every signed-in caller, form and table: a form with a
    non-blank name, quantity 5, unit price "19.999" and a storable
    threshold, sent when the generated id is fresh, is stored as a row
    with quantity 5 and unit price 20.00, and the caller's next list
    returns that row. *)
Theorem addItem_normalises (u : User.t) (st : State.t)
  (srv srv' : Supabase.server) (b : Supabase.backend) :
  let p := Page.addItem_payload u st in
  (Payload.description p
   = if whitespace_only (State.description st) then None
     else Some (JS.trim (State.description st)))
  /\ (Payload.sku p
      = if whitespace_only (State.sku st) then None
        else Some (JS.trim (State.sku st)))
  /\ (Payload.category p
      = if whitespace_only (State.category st) then None
        else Some (JS.trim (State.category st)))
  /\ (Payload.quantity p
      = if JS.Number_isFinite (State.quantity st) then State.quantity st
        else JS.Num 0)
  /\ (Payload.low_stock_threshold p
      = if JS.Number_isFinite (State.threshold st) then State.threshold st
        else JS.Num (10 # 1))
  /\ (State.unitPrice st = "" -> Payload.unit_price p = None)
  /\ (forall x,
        State.unitPrice st <> "" ->
        JS.parseFloat (State.unitPrice st) = JS.Num x ->
        (Qabs x < JS.pow10 21)%Q ->
        exists n : Z,
          Payload.unit_price p
          = Some (JS.binary64
                    (if Qle_bool 0 x then (n # 100) else - (n # 100))%Q)
          /\ (Qabs x * (100 # 1) - (1 # 2) < inject_Z n)%Q
          /\ (inject_Z n <= Qabs x * (100 # 1) + (1 # 2))%Q)
  /\ (forall x,
        State.unitPrice st <> "" ->
        JS.parseFloat (State.unitPrice st) = JS.Num x ->
        (JS.pow10 21 <= Qabs x)%Q ->
        Payload.unit_price p = Some (JS.Num x))
  /\ (forall t,
        JS.trim (State.name st) <> "" ->
        State.quantity st = JS.Num (inject_Z 5) ->
        State.unitPrice st = "19.999" ->
        State.threshold st = JS.Num (inject_Z t) -> int4 t ->
        existsb (fun r => String.eqb (id r) (Supabase.gen_random_uuid srv))
          (Supabase.table b) = false ->
        let run := Page.addItem_mutationFn (Some u) srv st b in
        let r := mkItem (Supabase.gen_random_uuid srv) (User.id u)
                   (Payload.name p) (Payload.description p) (Payload.sku p)
                   (Payload.category p) 5 (Some 2000) (Some t)
                   (Supabase.now srv) (Supabase.now srv) in
        fst run = inr tt
        /\ Supabase.table (snd run) = Supabase.table b ++ [r]
        /\ exists l, fst (Page.items_queryFn (Some u) srv' (snd run)) = inr l
                     /\ In r l).
Proof.
  intros p. repeat apply conj.
  - apply or_null_trim.
  - apply or_null_trim.
  - apply or_null_trim.
  - reflexivity.
  - reflexivity.
  - intros E. subst p. unfold Page.addItem_payload. cbn. now rewrite E.
  - intros x Hne Hx Hlt.
    destruct (toFixed2_nearest x Hlt) as (E & Hlo & Hhi).
    exists (Qfloor (Qabs x * (100 # 1) + (1 # 2))%Q).
    split; [|split; assumption].
    apply truthy_true in Hne. subst p. unfold Page.addItem_payload.
    cbn [Payload.unit_price]. rewrite Hne, Hx, E. cbn [JS.Number_of].
    now destruct (Qle_bool 0 x).
  - intros x Hne Hx Hge. apply truthy_true in Hne. subst p.
    unfold Page.addItem_payload. cbn [Payload.unit_price].
    rewrite Hne, Hx. unfold JS.toFixed2.
    apply Qle_bool_iff in Hge. now rewrite Hge.
  - intros t Hnm Hq Hp Ht Hint Hfresh run r.
    assert (R := addItem_mutationFn_run u srv st b). fold run in R.
    apply truthy_true in Hnm. rewrite Hnm in R. cbn [negb] in R.
    cbv zeta in R.
    assert (I : Pg.insert (Supabase.context_of (Some u) srv)
                  (Payload.to_json (Page.addItem_payload u st))
                  (Supabase.table b) = inr (Supabase.table b ++ [r])).
    { unfold Pg.insert, Payload.to_json, Page.addItem_payload.
      cbn [Pg.Body.quantity Pg.Body.unit_price Pg.Body.low_stock_threshold
           Pg.Body.user_id Pg.Body.name Pg.Body.description Pg.Body.sku
           Pg.Body.category Payload.quantity Payload.unit_price
           Payload.low_stock_threshold Payload.user_id Payload.name
           Payload.description Payload.sku Payload.category].
      rewrite Hq, Hp, Ht. cbn [JS.Number_isFinite JS.truthy].
      rewrite (int4_in_int4 5) by (unfold int4; lia).
      rewrite (int4_in_int4 t Hint).
      replace (Pg.decimal_10_2_in _) with
        (inr (Some 2000) : result Pg.error (option decimal_10_2))
        by (vm_compute; reflexivity).
      cbn [rbind Pg.not_null].
      unfold Pg.policy_insert_check, Supabase.context_of. cbn.
      rewrite String.eqb_refl. cbn [negb].
      cbn in Hfresh. rewrite Hfresh. reflexivity. }
    rewrite I in R. rewrite R. cbn [fst snd].
    split; [reflexivity|]. split; [reflexivity|].
    rewrite items_queryFn_run. cbn [fst]. eexists. split; [reflexivity|].
    apply (Permutation_in _ (Permutation_sym (order_by_perm _))).
    apply visible_In. split; [|split; [|reflexivity]].
    + cbn. apply in_or_app. right. now left.
    + cbn. apply String.eqb_refl.
Qed.

(** C7, at the sample form. *)
Lemma addItem_normalises_witness :
  let run := Page.addItem_mutationFn (Some Sample.alice) Sample.srv
               Sample.form_19_999 Sample.empty in
  let r := mkItem "item-4" "user-a" "Widget" None None None 5 (Some 2000)
             (Some 10) 3000 3000 in
  fst run = inr tt
  /\ Supabase.table (snd run) = [r]
  /\ exists l, fst (Page.items_queryFn (Some Sample.alice) Sample.srv'
                      (snd run)) = inr l
               /\ In r l.
Proof.
  refine (proj2 (proj2 (proj2 (proj2 (proj2 (proj2 (proj2 (proj2
    (addItem_normalises Sample.alice Sample.form_19_999 Sample.srv
       Sample.srv' Sample.empty)))))))) 10 _ _ _ _ _ _).
  - discriminate.
  - reflexivity.
  - reflexivity.
  - reflexivity.
  - unfold int4. lia.
  - reflexivity.
Defined.

(* ================================================================== *)
(** ** The view *)
(* ================================================================== *)

(** C4. For every list of items and every search string, with [q] the
    search string trimmed and lower-cased:
    - an empty or blank search string passes the list through unchanged;
    - otherwise the result is the list filtered, in order, by a test that
      holds exactly of the items one of whose non-null fields among name,
      sku, category, description contains [q] once lower-cased;
    - an empty list, and a list not yet loaded, give the empty result. *)
Theorem filtered_spec (items : list InventoryItem) (search : string) :
  let q := JS.toLowerCase (JS.trim search) in
  (whitespace_only search = true -> filtered (Some items) search = items)
  /\ (whitespace_only search = false ->
      filtered (Some items) search = filter (matches q) items
      /\ (forall it, matches q it = true <-> search_hit q it)
      /\ (forall it, In it (filtered (Some items) search)
                     <-> In it items /\ search_hit q it))
  /\ filtered (Some []) search = []
  /\ filtered None search = [].
Proof.
  intros q. unfold filtered. fold q.
  destruct (JS.truthy q) eqn:T; cbn [negb].
  - assert (W : whitespace_only search = false).
    { apply not_true_is_false. intros W.
      apply search_query_empty in W. fold q in W. congruence. }
    apply truthy_true in T. rewrite W.
    split; [discriminate|]. split; [|split; reflexivity].
    intros _. split; [reflexivity|]. split.
    + intros it. now apply matches_iff.
    + intros it. rewrite filter_In, matches_iff by exact T. reflexivity.
  - apply search_query_empty in T. rewrite T.
    split; [reflexivity|]. split; [discriminate|]. split; reflexivity.
Qed.

(** C4, at the spec's example: searching "shirt" among the blue shirt and
    the red hat. *)
Lemma filtered_spec_witness :
  filtered (Some [Sample.blue_shirt; Sample.red_hat]) "shirt"
  = filter (matches "shirt") [Sample.blue_shirt; Sample.red_hat]
  /\ filtered (Some [Sample.blue_shirt; Sample.red_hat]) "  " =
     [Sample.blue_shirt; Sample.red_hat].
Proof.
  split.
  - refine (proj1 (proj1 (proj2
      (filtered_spec [Sample.blue_shirt; Sample.red_hat] "shirt")) _)).
    reflexivity.
  - refine (proj1
      (filtered_spec [Sample.blue_shirt; Sample.red_hat] "  ") _).
    reflexivity.
Defined.

(** The spec's filtering example, evaluated. *)
Example filtered_shirt :
  filtered (Some [Sample.blue_shirt; Sample.red_hat]) "shirt"
  = [Sample.blue_shirt]
  /\ filtered (Some [Sample.blue_shirt; Sample.red_hat]) ""
     = [Sample.blue_shirt; Sample.red_hat].
Proof. split; reflexivity. Qed.

(** C5. An item with a threshold is flagged low exactly when its quantity
    is at most the threshold; an item with a null threshold is never
    flagged. *)
Theorem low_iff (it : InventoryItem) :
  (forall t, low_stock_threshold it = Some t ->
             (low it = true <-> quantity it <= t))
  /\ (low_stock_threshold it = None -> low it = false).
Proof.
  unfold low. split.
  - intros t ->. apply Z.leb_le.
  - intros ->. reflexivity.
Qed.

(** C5, at the blue shirt: 3 in stock against a threshold of 10. *)
Lemma low_iff_witness : low Sample.blue_shirt = true.
Proof.
  refine (proj2 (proj1 (low_iff Sample.blue_shirt) 10 _) _).
  - reflexivity.
  - cbn. lia.
Defined.

Lemma snd_mutate (m : Page.M unit) (ok : Page.ui -> Page.ui)
  (ko : Page.exn -> Page.ui -> Page.ui) (w : Page.ui * Supabase.backend) :
  snd (Page.mutate m ok ko w) = snd (m (snd w)).
Proof.
  unfold Page.mutate. now destruct (m (snd w)) as [[e|x] b'].
Qed.






(* ================================================================== *)
(** ** More on the store and the mutations *)
(* ================================================================== *)

Section MoreStore.

Lemma int4_in_errors (j : option Q) (e : Pg.error) :
  Pg.int4_in j = inl e ->
  e = Pg.invalid_text_representation \/ e = Pg.numeric_value_out_of_range.
Proof.
  unfold Pg.int4_in. destruct j as [d|]; [|discriminate].
  destruct (_ || _); [intros [= <-]; now left|].
  destruct (_ && _); [discriminate | intros [= <-]; now right].
Qed.

Lemma int4_in_Some (d : Q) (q : option Z) :
  Pg.int4_in (Some d) = inr q -> exists z, q = Some z.
Proof.
  unfold Pg.int4_in. destruct (_ || _); [discriminate|].
  destruct (_ && _); [|discriminate]. intros [= <-]. eauto.
Qed.

Lemma decimal_10_2_in_errors (j : option Q) (e : Pg.error) :
  Pg.decimal_10_2_in j = inl e -> e = Pg.numeric_value_out_of_range.
Proof.
  unfold Pg.decimal_10_2_in. destruct j as [d|]; [|discriminate].
  destruct (_ <? _); [discriminate | now intros [= <-]].
Qed.

(** The row an INSERT that succeeds appends, and why it could. *)
Lemma insert_inr_row (ctx : Pg.context) (b : Pg.Body.t) (tbl tbl' : Pg.table) :
  Pg.insert ctx b tbl = inr tbl' ->
  exists q p th,
    tbl' = tbl ++ [mkItem (Pg.gen_random_uuid ctx) (Pg.Body.user_id b)
                     (Pg.Body.name b) (Pg.Body.description b)
                     (Pg.Body.sku b) (Pg.Body.category b) q p th
                     (Pg.now ctx) (Pg.now ctx)]
    /\ Pg.auth_uid ctx = Some (Pg.Body.user_id b)
    /\ (forall r, In r tbl -> id r <> Pg.gen_random_uuid ctx).
Proof.
  unfold Pg.insert, rbind.
  destruct (Pg.int4_in (Pg.Body.quantity b)) as [|q]; [discriminate|].
  destruct (Pg.decimal_10_2_in _) as [|p]; [discriminate|].
  destruct (Pg.int4_in (Pg.Body.low_stock_threshold b)) as [|th];
    [discriminate|].
  destruct (Pg.policy_insert_check _ _) eqn:Hpol; cbn [negb]; [|discriminate].
  destruct q as [q|]; cbn [Pg.not_null]; [|discriminate].
  destruct (existsb _ tbl) eqn:Hex; [discriminate|].
  intros [= <-]. exists q, p, th. split; [reflexivity|]. split.
  - unfold Pg.policy_insert_check, Pg.owner_is in Hpol. cbn in Hpol.
    destruct (Pg.auth_uid ctx) as [a|]; [|discriminate].
    apply String.eqb_eq in Hpol. now subst a.
  - intros r Hr E.
    assert (X : existsb (fun r => String.eqb (id r) (Pg.gen_random_uuid ctx))
                  tbl = true).
    { apply existsb_exists. exists r. split; [exact Hr|].
      now apply String.eqb_eq. }
    congruence.
Qed.

Lemma NoDup_map_filter {X Y} (f : X -> Y) (p : X -> bool) (l : list X) :
  NoDup (map f l) -> NoDup (map f (filter p l)).
Proof.
  induction l as [|x l IH]; cbn; [auto|].
  intros H. inversion H as [|? ? Hn Hd]; subst.
  destruct (p x); cbn; [|auto]. constructor; [|auto].
  intros Hin. apply Hn. apply in_map_iff in Hin as (y & Hy & Hin).
  apply filter_In in Hin as [Hin _]. apply in_map_iff. eauto.
Qed.

Lemma map_id_written (uid : option uuid) (i : uuid) (z : Z) (t : timestamptz)
  (tbl : Pg.table) :
  map id (map (written uid i z t) tbl) = map id tbl.
Proof.
  rewrite map_map. apply map_ext. intros r. unfold written.
  now destruct (_ && _).
Qed.

End MoreStore.

(** X1. Whatever the form holds, the row the page submits carries the
    caller's id as [user_id] and a quantity that is not null, and the
    store never answers the page's insert with a row-level security
    denial or a NOT NULL violation. *)
Theorem addItem_store_errors (u : User.t) (srv : Supabase.server)
  (st : State.t) (b : Supabase.backend) (e : Pg.error) :
  let body := Payload.to_json (Page.addItem_payload u st) in
  Pg.Body.user_id body = User.id u
  /\ Pg.Body.quantity body <> None
  /\ (fst (Page.addItem_mutationFn (Some u) srv st b)
      = inl (Page.StoreError e) ->
      e <> Pg.insufficient_privilege /\ e <> Pg.not_null_violation).
Proof.
  intros body. split; [reflexivity|]. split.
  { unfold body. cbn.
    destruct (JS.Number_isFinite (State.quantity st)) eqn:F.
    - destruct (State.quantity st); try discriminate F. cbn.
      destruct (JS.isSafeInteger _); discriminate.
    - cbn. discriminate. }
  assert (D : fst (Page.addItem_mutationFn (Some u) srv st b)
              = inl (Page.StoreError e) ->
              e = Pg.invalid_text_representation
              \/ e = Pg.numeric_value_out_of_range
              \/ e = Pg.unique_violation).
  { rewrite addItem_mutationFn_run.
    destruct (negb _); [discriminate|]. cbv zeta. fold body.
    destruct (Pg.insert _ body _) as [e'|tbl] eqn:I; cbn [fst];
      [|discriminate].
    intros [= ->]. revert I. unfold Pg.insert, rbind.
    destruct (Pg.int4_in (Pg.Body.quantity body)) as [e1|q] eqn:Eq.
    { intros [= ->]. apply int4_in_errors in Eq. tauto. }
    destruct (Pg.decimal_10_2_in (Pg.Body.unit_price body)) as [e2|p] eqn:Ep.
    { intros [= ->]. apply decimal_10_2_in_errors in Ep. tauto. }
    destruct (Pg.int4_in (Pg.Body.low_stock_threshold body)) as [e3|th] eqn:Et.
    { intros [= ->]. apply int4_in_errors in Et. tauto. }
    unfold Pg.policy_insert_check. cbn. rewrite String.eqb_refl. cbn [negb].
    assert (Hq : exists z, q = Some z).
    { revert Eq. unfold body. cbn.
      destruct (JS.Number_isFinite (State.quantity st)) eqn:F.
      - destruct (State.quantity st); try discriminate F.
        cbn. apply int4_in_Some.
      - cbn. intros [= <-]. eauto. }
    destruct Hq as [z ->]. cbn.
    destruct (existsb _ _); [intros [= <-]; tauto | discriminate]. }
  intros H. destruct (D H) as [->|[->| ->]]; split; discriminate.
Qed.

(** X1, at the form with a quantity beyond 32 bits. *)
Lemma addItem_store_errors_witness :
  Pg.numeric_value_out_of_range <> Pg.insufficient_privilege
  /\ Pg.numeric_value_out_of_range <> Pg.not_null_violation.
Proof.
  refine (proj2 (proj2
    (addItem_store_errors Sample.alice Sample.srv Sample.form_too_many
       Sample.empty Pg.numeric_value_out_of_range)) _).
  vm_compute. reflexivity.
Defined.

(** X2. The primary key stays a key: if no two rows of the table share an
    id, then none do after a Create, an UpdateQuantity or a Delete,
    whatever their arguments and whether they succeed or fail. *)
Theorem mutations_keep_ids_unique (session : option User.t)
  (srv : Supabase.server) (st : State.t) (i : uuid) (v : JS.number)
  (b : Supabase.backend) :
  NoDup (map id (Supabase.table b)) ->
  NoDup (map id (Supabase.table
                   (snd (Page.addItem_mutationFn session srv st b))))
  /\ NoDup (map id (Supabase.table
                      (snd (Page.updateQuantity_mutationFn session srv i v b))))
  /\ NoDup (map id (Supabase.table
                      (snd (Page.deleteItem_mutationFn session srv i b)))).
Proof.
  intros H. split; [|split].
  - destruct session as [u|]; [|exact H].
    rewrite addItem_mutationFn_run. destruct (negb _); [exact H|].
    cbv zeta. destruct (Pg.insert _ _ _) as [e|tbl] eqn:I; [exact H|].
    apply insert_inr_row in I as (q & p & th & -> & _ & Hfresh).
    cbn [snd Supabase.table Supabase.received].
    rewrite map_app. cbn. apply NoDup_app; [exact H | | ].
    + repeat constructor. intros [].
    + intros x Hx [<-|[]]. apply in_map_iff in Hx as (r & Hr & Hin).
      now apply (Hfresh r Hin).
  - rewrite table_after_updateQuantity.
    destruct (Pg.int4_in _) as [e|[z|]]; [exact H | | exact H].
    now rewrite map_id_written.
  - rewrite deleteItem_mutationFn_run. cbn [snd Supabase.table Supabase.received].
    unfold Pg.delete. now apply NoDup_map_filter.
Qed.

(** X2, at the sample table. *)
Lemma mutations_keep_ids_unique_witness :
  NoDup (map id (Supabase.table
                   (snd (Page.deleteItem_mutationFn (Some Sample.alice)
                           Sample.srv "item-1" Sample.stocked)))).
Proof.
  refine (proj2 (proj2
    (mutations_keep_ids_unique (Some Sample.alice) Sample.srv
       Sample.form_19_999 "item-1" JS.NaN Sample.stocked _))).
  cbn. repeat constructor; cbn; intuition discriminate.
Defined.

Lemma visible_app (ctx : Pg.context) (where_ : InventoryItem -> bool)
  (l l' : Pg.table) :
  Pg.visible ctx where_ (l ++ l')
  = Pg.visible ctx where_ l ++ Pg.visible ctx where_ l'.
Proof. unfold Pg.visible. apply filter_app. Qed.

(** X3. Create composes with List. After a Create that succeeds, the
    table is the old one with one row appended: it carries the generated
    id, the caller's id and the trimmed name. The caller's next list is
    the old list with that row added, and the list of any other user is
    exactly what it was. *)
Theorem create_then_list (u : User.t) (srv srv' : Supabase.server)
  (st : State.t) (b : Supabase.backend) :
  let run := Page.addItem_mutationFn (Some u) srv st b in
  fst run = inr tt ->
  exists r,
    Supabase.table (snd run) = Supabase.table b ++ [r]
    /\ id r = Supabase.gen_random_uuid srv
    /\ user_id r = User.id u
    /\ name r = JS.trim (State.name st)
    /\ (exists l l',
          fst (Page.items_queryFn (Some u) srv' b) = inr l
          /\ fst (Page.items_queryFn (Some u) srv' (snd run)) = inr l'
          /\ Permutation l' (r :: l))
    /\ (forall u', User.id u' <> User.id u ->
          fst (Page.items_queryFn (Some u') srv' (snd run))
          = fst (Page.items_queryFn (Some u') srv' b)).
Proof.
  intros run Hok. subst run. revert Hok.
  rewrite addItem_mutationFn_run. destruct (negb _); [discriminate|].
  cbv zeta. destruct (Pg.insert _ _ _) as [e|tbl] eqn:I; [discriminate|].
  intros _. apply insert_inr_row in I as (q & p & th & -> & _ & _).
  cbn [snd fst Supabase.table Supabase.received].
  eexists. split; [reflexivity|].
  cbn [id user_id name Pg.gen_random_uuid Supabase.context_of
       Pg.Body.user_id Pg.Body.name Payload.to_json Page.addItem_payload
       Payload.user_id Payload.name].
  do 3 (split; [reflexivity|]). split.
  - rewrite !items_queryFn_run. cbn [fst Supabase.table Supabase.received].
    do 2 eexists. split; [reflexivity|]. split; [reflexivity|].
    rewrite !order_by_perm, visible_app. unfold Pg.visible at 2. cbn.
    rewrite String.eqb_refl. cbn. rewrite <- Permutation_cons_append.
    reflexivity.
  - intros u' Hu'. rewrite !items_queryFn_run.
    cbn [fst Supabase.table Supabase.received]. rewrite visible_app.
    unfold Pg.visible at 2. cbn.
    replace (String.eqb (User.id u') (User.id u)) with false
      by (symmetry; now apply String.eqb_neq).
    cbn. now rewrite app_nil_r.
Qed.

(** X3, at the sample form. *)
Lemma create_then_list_witness :
  exists r,
    Supabase.table
      (snd (Page.addItem_mutationFn (Some Sample.alice) Sample.srv
              Sample.form_19_999 Sample.stocked))
    = Supabase.table Sample.stocked ++ [r]
    /\ id r = "item-4".
Proof.
  destruct (create_then_list Sample.alice Sample.srv Sample.srv'
              Sample.form_19_999 Sample.stocked)
    as (r & H1 & H2 & _); [vm_compute; reflexivity|].
  exists r. split; assumption.
Defined.

(** X4. Delete never fails. It removes exactly the rows with the given
    id that are the caller's: every other row stays, in its place. A
    second Delete of the same id changes nothing. *)
Theorem deleteItem_removes (session : option User.t)
  (srv srv' : Supabase.server) (i : uuid) (b : Supabase.backend) :
  let run := Page.deleteItem_mutationFn session srv i b in
  let uid := option_map User.id session in
  fst run = inr tt
  /\ (forall r, In r (Supabase.table (snd run)) <->
                In r (Supabase.table b)
                /\ ~ (Pg.owner_is uid r = true /\ id r = i))
  /\ (exists keep, Supabase.table (snd run) = filter keep (Supabase.table b))
  /\ Supabase.table (snd (Page.deleteItem_mutationFn session srv' i (snd run)))
     = Supabase.table (snd run).
Proof.
  intros run uid. subst run uid. rewrite !deleteItem_mutationFn_run.
  cbn [fst snd Supabase.table Supabase.received].
  split; [reflexivity|]. split; [|split].
  - intros r. unfold Pg.delete. rewrite filter_In.
    unfold Pg.delete_targets, Pg.policy_delete_using, Supabase.eq_id.
    cbn [Pg.auth_uid Supabase.context_of].
    destruct (Pg.owner_is (option_map User.id session) r);
      destruct (String.eqb_spec (id r) i); cbn; intuition congruence.
  - eexists. reflexivity.
  - apply delete_no_target. intros r Hr. unfold Pg.delete in Hr.
    apply filter_In in Hr as [_ Hr]. now apply negb_true_iff in Hr.
Qed.

(** X5. Create then Delete is a round trip on the table: deleting, as
    the same user, the id a successful Create generated gives back the
    table as it was before the Create. *)
Theorem create_then_delete (u : User.t) (srv srv' : Supabase.server)
  (st : State.t) (b : Supabase.backend) :
  let run := Page.addItem_mutationFn (Some u) srv st b in
  fst run = inr tt ->
  Supabase.table
    (snd (Page.deleteItem_mutationFn (Some u) srv'
            (Supabase.gen_random_uuid srv) (snd run)))
  = Supabase.table b.
Proof.
  intros run Hok. subst run. revert Hok.
  rewrite addItem_mutationFn_run. destruct (negb _); [discriminate|].
  cbv zeta. destruct (Pg.insert _ _ _) as [e|tbl] eqn:I; [discriminate|].
  intros _. apply insert_inr_row in I as (q & p & th & -> & _ & Hfresh).
  rewrite deleteItem_mutationFn_run.
  cbn [snd Supabase.table Supabase.received].
  unfold Pg.delete. rewrite filter_app.
  cbn [Pg.gen_random_uuid Supabase.context_of] in *.
  replace (filter _ (Supabase.table b)) with (Supabase.table b).
  - cbn. unfold Pg.delete_targets, Pg.policy_delete_using, Supabase.eq_id.
    cbn. rewrite !String.eqb_refl. cbn. apply app_nil_r.
  - symmetry. apply (delete_no_target (Supabase.context_of (Some u) srv')).
    intros r Hr. unfold Pg.delete_targets, Supabase.eq_id.
    replace (String.eqb (id r) (Supabase.gen_random_uuid srv)) with false;
      [apply andb_false_r|].
    symmetry. apply String.eqb_neq. now apply Hfresh.
Qed.

(** X5, at the sample form and table. *)
Lemma create_then_delete_witness :
  Supabase.table
    (snd (Page.deleteItem_mutationFn (Some Sample.alice) Sample.srv' "item-4"
            (snd (Page.addItem_mutationFn (Some Sample.alice) Sample.srv
                    Sample.form_19_999 Sample.stocked))))
  = Supabase.table Sample.stocked.
Proof.
  apply (create_then_delete Sample.alice Sample.srv Sample.srv'
           Sample.form_19_999 Sample.stocked).
  vm_compute. reflexivity.
Defined.

Lemma fst_mutate_ok (m : Page.M unit) (ok : Page.ui -> Page.ui)
  (ko : Page.exn -> Page.ui -> Page.ui) (w : Page.ui * Supabase.backend) :
  fst (m (snd w)) = inr tt -> fst (Page.mutate m ok ko w) = ok (fst w).
Proof.
  unfold Page.mutate. destruct (m (snd w)) as [[e|[]] b']; cbn;
    [discriminate | reflexivity].
Qed.

Lemma fst_mutate_ko (m : Page.M unit) (ok : Page.ui -> Page.ui)
  (ko : Page.exn -> Page.ui -> Page.ui) (w : Page.ui * Supabase.backend)
  (e : Page.exn) :
  fst (m (snd w)) = inl e -> fst (Page.mutate m ok ko w) = ko e (fst w).
Proof.
  unfold Page.mutate. destruct (m (snd w)) as [[e'|[]] b']; cbn;
    [now intros [= ->] | discriminate].
Qed.

(** X6. The quantity buttons at the bounds of the INTEGER column, for an
    item read from the table. "Decrease" is always accepted by the store.
    "Increase" is accepted below 2147483647; at 2147483647 the store
    rejects the value 2147483648 as out of range, the table is left as it
    was, and the page adds one destructive toast titled "Update failed",
    leaving the form as it was and the list not invalidated. *)
Theorem quantity_buttons_at_bounds (session : option User.t)
  (srv : Supabase.server) (it : InventoryItem)
  (w : Page.ui * Supabase.backend) :
  int4 (quantity it) ->
  fst (Page.onClick_decrease session srv it w) = Page.invalidateQueries (fst w)
  /\ (quantity it < 2147483647 ->
      fst (Page.onClick_increase session srv it w)
      = Page.invalidateQueries (fst w))
  /\ (quantity it = 2147483647 ->
      fst (Page.updateQuantity_mutationFn session srv (id it)
             (JS.Num (inject_Z (increase_newQty it))) (snd w))
      = inl (Page.StoreError Pg.numeric_value_out_of_range)
      /\ snd (Page.onClick_increase session srv it w)
         = Supabase.received
             (Supabase.update_quantity_eq_id (Some (inject_Z 2147483648))
                (id it))
             (snd w) (Supabase.table (snd w))
      /\ exists description,
           fst (Page.onClick_increase session srv it w)
           = Page.toast (Toast.mk "Update failed" description true) (fst w)).
Proof.
  intros [Hlo Hhi].
  unfold Page.onClick_decrease, Page.onClick_increase,
    Page.updateQuantity_mutate, decrease_newQty, increase_newQty,
    JS.Math_max.
  split; [|split].
  - apply fst_mutate_ok, result_of_updateQuantity. unfold int4. lia.
  - intros H. apply fst_mutate_ok, result_of_updateQuantity. unfold int4. lia.
  - intros ->. unfold Page.mutate.
    change (2147483647 + 1) with 2147483648.
    rewrite updateQuantity_out_of_range by (unfold int4; lia).
    split; [reflexivity|]. split; [reflexivity|].
    eexists. reflexivity.
Qed.

(** X6, at a shelf holding 2147483647 nails. *)
Lemma quantity_buttons_at_bounds_witness :
  fst (Page.updateQuantity_mutationFn (Some Sample.alice) Sample.srv
         "item-9" (JS.Num (inject_Z (increase_newQty Sample.full_shelf)))
         Sample.shelved)
  = inl (Page.StoreError Pg.numeric_value_out_of_range).
Proof.
  refine (proj1 (proj2 (proj2
    (quantity_buttons_at_bounds (Some Sample.alice) Sample.srv
       Sample.full_shelf (Sample.ui0, Sample.shelved) _)) _)).
  - unfold int4. cbn. lia.
  - reflexivity.
Defined.

(** X7. A caller without a session gets nothing out of the table and
    nothing into it: every SELECT is empty, every INSERT is refused,
    every UPDATE and every DELETE leaves the table as it is, whatever
    they name. *)
Theorem anonymous_caller_is_powerless (t : timestamptz) (g : uuid)
  (tbl : Pg.table) :
  let ctx := Pg.mkContext None t g in
  (forall where_, Pg.visible ctx where_ tbl = [])
  /\ (forall body, exists e, Pg.insert ctx body tbl = inl e)
  /\ (forall set where_, Pg.update ctx set where_ tbl = inr tbl)
  /\ (forall where_, Pg.delete ctx where_ tbl = tbl).
Proof.
  intros ctx. split; [|split; [|split]].
  - intros where_. unfold Pg.visible. cbn.
    induction tbl as [|x l IH]; [reflexivity | exact IH].
  - intros body. destruct (Pg.insert ctx body tbl) as [e|tbl'] eqn:I;
      [now exists e|].
    apply insert_inr_row in I as (_ & _ & _ & _ & H & _). discriminate H.
  - intros set where_. apply update_no_target. reflexivity.
  - intros where_. apply delete_no_target. reflexivity.
Qed.

(** X8. What the three mutations leave on the page. A mutation that is
    rejected never marks the list stale and shows exactly one destructive
    toast; one that resolves marks the list stale and shows no
    destructive toast. UpdateQuantity and Delete never touch the form
    cells, and Delete is never rejected. *)
Theorem mutation_feedback (user : option User.t) (srv : Supabase.server)
  (i : uuid) (v : JS.number) (w : Page.ui * Supabase.backend) :
  feedback (fst (Page.addItem_mutationFn user srv (Page.state (fst w)) (snd w)))
    (fst w) (fst (Page.addItem_mutate user srv w))
  /\ feedback (fst (Page.updateQuantity_mutationFn user srv i v (snd w)))
       (fst w) (fst (Page.updateQuantity_mutate user srv i v w))
  /\ Page.state (fst (Page.updateQuantity_mutate user srv i v w))
     = Page.state (fst w)
  /\ feedback (fst (Page.deleteItem_mutationFn user srv i (snd w)))
       (fst w) (fst (Page.deleteItem_mutate user srv i w))
  /\ Page.state (fst (Page.deleteItem_mutate user srv i w))
     = Page.state (fst w)
  /\ succeeded (fst (Page.deleteItem_mutationFn user srv i (snd w))) = true.
Proof.
  assert (F : forall m ok ko,
             (exists ts, (List.length ts <= 1)%nat
                         /\ Forall (fun t => Toast.destructive t = false) ts
                         /\ forall u, Page.invalidated (ok u) = true
                                      /\ Page.toasts (ok u)
                                         = Page.toasts u ++ ts) ->
             (forall e, exists t, Toast.destructive t = true
                                  /\ forall u, ko e u = Page.toast t u) ->
             feedback (fst (m (snd w))) (fst w)
               (fst (Page.mutate m ok ko w))).
  { intros m ok ko (ts & Hlen & Hnd & Hok) Hko. unfold Page.mutate, feedback.
    destruct (m (snd w)) as [[e|[]] b']; cbn [fst succeeded negb].
    - destruct (Hko e) as (t & Ht & ->). cbn. rewrite orb_false_r.
      split; [reflexivity|]. exists [t].
      split; [reflexivity|]. split; [cbn; lia|].
      split; [now repeat constructor | reflexivity].
    - destruct (Hok (fst w)) as [Hi Ht]. rewrite Hi, orb_true_r.
      split; [reflexivity|]. exists ts. split; [exact Ht|].
      split; [exact Hlen|]. split; [exact Hnd | discriminate]. }
  assert (K : forall title dflt e,
             exists t, Toast.destructive t = true
                       /\ forall u,
                            Page.toast
                              (Toast.mk title
                                 (Page.or_else (Page.message e) dflt) true) u
                            = Page.toast t u).
  { intros title dflt e. eexists. split; [|intros u; reflexivity].
    reflexivity. }
  split; [|split; [|split; [|split; [|split]]]].
  - apply F; [|intros e; apply K].
    exists [Toast.mk "Item added"
              "New item has been added to your inventory." false].
    split; [cbn; lia|]. split; [now repeat constructor|].
    intros u. split; reflexivity.
  - apply F; [|intros e; apply K].
    exists []. split; [cbn; lia|]. split; [constructor|].
    intros u. split; [reflexivity|]. cbn. symmetry. apply app_nil_r.
  - unfold Page.updateQuantity_mutate, Page.mutate.
    now destruct (Page.updateQuantity_mutationFn _ _ _ _ _) as [[e|[]] b'].
  - apply F; [|intros e; apply K].
    exists [Toast.mk "Item deleted"
              "The item was removed from your inventory." false].
    split; [cbn; lia|]. split; [now repeat constructor|].
    intros u. split; reflexivity.
  - reflexivity.
  - reflexivity.
Qed.

(** X9. Stock that is low stays low when decreased: for an item with a
    threshold that is not negative, once flagged low it is still flagged
    after "Decrease" has written its value. With a negative threshold an
    item below zero can lose the flag, since the written value is 0. *)
Theorem low_stays_low_on_decrease (it : InventoryItem) (t : Z) :
  low_stock_threshold it = Some t ->
  (0 <= t -> low it = true ->
   low (Supabase.set_quantity (decrease_newQty it) it) = true)
  /\ (t < 0 -> low (Supabase.set_quantity (decrease_newQty it) it) = false).
Proof.
  intros Ht. unfold low, decrease_newQty, JS.Math_max. cbn. rewrite Ht.
  split.
  - intros H0 H. apply Z.leb_le in H. apply Z.leb_le. lia.
  - intros H. apply Z.leb_gt. lia.
Qed.

(** X9, at the blue shirt. *)
Lemma low_stays_low_on_decrease_witness :
  low (Supabase.set_quantity (decrease_newQty Sample.blue_shirt)
         Sample.blue_shirt) = true.
Proof.
  refine (proj1 (low_stays_low_on_decrease Sample.blue_shirt 10 _) _ _).
  - reflexivity.
  - lia.
  - reflexivity.
Defined.

(** X10. Who sees what. The inventory page shows its content exactly when
    its list query is enabled, which is exactly when the dashboard shows
    its content: a user is signed in and loading is over. The dashboard's
    effect asks for "/auth" exactly when loading is over and nobody is
    signed in. From the content, where the "Add Item" button lives,
    Create is never rejected as not authenticated. *)
Theorem pages_gate (user : option User.t) (loading : bool) :
  (fst (Page.render user loading) = Page.Content
   <-> Page.items_enabled user loading = true)
  /\ (fst (Page.render user loading) = Page.Content
      <-> exists email, Index.render user loading = Index.Content email)
  /\ (fst (Page.render user loading) = Page.Content
      <-> loading = false /\ user <> None)
  /\ (Index.effect user loading = Some "/auth"
      <-> loading = false /\ user = None)
  /\ (Index.effect user loading = None
      <-> loading = true \/ user <> None)
  /\ (fst (Page.render user loading) = Page.Content ->
      forall srv st b,
        fst (Page.addItem_mutationFn user srv st b) <> inl Page.Unauthorized).
Proof.
  split; [|split; [|split; [|split; [|split]]]].
  - destruct loading, user as [u|]; cbn; split;
      solve [reflexivity | discriminate].
  - destruct loading, user as [u|]; cbn; split;
      try discriminate; try (intros [email H]; discriminate H).
    + intros _. now exists (User.email u).
    + reflexivity.
  - destruct loading, user as [u|]; cbn; split; intros H;
      solve [ discriminate H | reflexivity
            | split; [reflexivity | discriminate]
            | destruct H as [H1 H2]; congruence ].
  - destruct loading, user as [u|]; cbn; split; intros H;
      solve [ discriminate H | reflexivity
            | split; reflexivity
            | destruct H as [H1 H2]; congruence ].
  - destruct loading, user as [u|]; cbn; split; intros H;
      solve [ discriminate H | reflexivity
            | left; reflexivity | right; discriminate
            | destruct H as [H|H]; congruence ].
  - destruct loading, user as [u|]; try (intros H; discriminate H).
    intros _ srv st b. rewrite addItem_mutationFn_run.
    destruct (negb _); [discriminate|]. cbv zeta.
    destruct (Pg.insert _ _ _); discriminate.
Qed.

(** X10, for Alice once loading is over. *)
Lemma pages_gate_witness :
  fst (Page.addItem_mutationFn (Some Sample.alice) Sample.srv
         Sample.form_19_999 Sample.empty) <> inl Page.Unauthorized.
Proof.
  refine (proj2 (proj2 (proj2 (proj2 (proj2
    (pages_gate (Some Sample.alice) false))))) _ Sample.srv
    Sample.form_19_999 Sample.empty).
  reflexivity.
Defined.

(* ================================================================== *)
(** ** The number fields *)
(* ================================================================== *)

(** The Number for an integer is an integer, or an infinity. *)
Lemma binary64_of_int (z : Z) :
  (exists m, JS.binary64 (inject_Z z) = JS.Num (inject_Z m))
  \/ JS.binary64 (inject_Z z) = JS.Infinity
  \/ JS.binary64 (inject_Z z) = JS.NegInfinity.
Proof.
  destruct (Z_lt_le_dec (Z.abs z) (2 ^ 53)) as [Hs|Hb].
  { left. exists z. now apply binary64_int. }
  set (c := Z.abs z). assert (Hc : 1 <= c) by (unfold c; lia).
  assert (He : 53 <= Z.log2 c).
  { apply Z.log2_le_pow2; [lia | exact Hb]. }
  unfold JS.binary64.
  destruct (Qeq_bool (inject_Z z) 0) eqn:E0.
  { apply Qeq_bool_eq in E0. unfold Qeq, inject_Z in E0. cbn in E0. lia. }
  change (Qabs (inject_Z z)) with (inject_Z c).
  rewrite (ilog2_int c Hc), Z.max_l by lia.
  set (k := JS.round_half_even _).
  destruct (Qle_bool (JS.pow2 1024) _).
  { right. destruct (Qle_bool 0 (inject_Z z)); auto. }
  left.
  assert (Hr : (inject_Z k * JS.pow2 (Z.log2 c - 52)
                == inject_Z (k * 2 ^ (Z.log2 c - 52)))%Q).
  { rewrite pow2_Z by lia. now rewrite inject_Z_mult. }
  destruct (Qle_bool 0 (inject_Z z)).
  - exists (k * 2 ^ (Z.log2 c - 52)).
    rewrite (Qred_complete _ _ Hr). now rewrite Qred_inject_Z.
  - exists (- (k * 2 ^ (Z.log2 c - 52))).
    f_equal.
    transitivity (Qred (inject_Z (- (k * 2 ^ (Z.log2 c - 52)))));
      [|apply Qred_inject_Z].
    apply Qred_complete. rewrite Hr, inject_Z_opp. reflexivity.
Qed.

Lemma parseInt10_shape (s : string) :
  JS.parseInt10 s = JS.NaN
  \/ JS.parseInt10 s = JS.Infinity
  \/ JS.parseInt10 s = JS.NegInfinity
  \/ exists m, JS.parseInt10 s = JS.Num (inject_Z m).
Proof.
  unfold JS.parseInt10.
  destruct (JS.sign (JS.trimStart s)) as [neg s1].
  destruct (JS.digits 0 0 s1) as [[n cnt] rest].
  destruct (cnt =? 0); [now left|].
  destruct (binary64_of_int (if neg then - n else n)) as [[m H]|[H|H]];
    rewrite H; eauto.
Qed.

(** X11. The quantity and threshold fields. Whatever is typed, the cell
    the handler writes is [NaN], an infinity, or a whole number, never a
    fraction; an emptied field gives 0; the other cells are not touched.
    With the guard of Create, the quantity and the threshold it sends
    are always whole numbers. *)
Theorem number_fields_hold_integers (value : string) (u0 : Page.ui)
  (usr : User.t) :
  let whole (n : JS.number) := exists m, n = JS.Num (inject_Z m) in
  let cell (n : JS.number) :=
    n = JS.NaN \/ n = JS.Infinity \/ n = JS.NegInfinity \/ whole n in
  let sq := Page.state (Page.onChange_quantity value u0) in
  let sth := Page.state (Page.onChange_threshold value u0) in
  cell (State.quantity sq) /\ cell (State.threshold sth)
  /\ (value = "" ->
      State.quantity sq = JS.Num 0 /\ State.threshold sth = JS.Num 0)
  /\ State.threshold sq = State.threshold (Page.state u0)
  /\ State.quantity sth = State.quantity (Page.state u0)
  /\ whole (Payload.quantity (Page.addItem_payload usr sq))
  /\ whole (Payload.low_stock_threshold (Page.addItem_payload usr sth)).
Proof.
  intros whole cell sq sth. subst whole cell sq sth. cbn.
  pose proof (parseInt10_shape (Page.or_else value "0")) as P.
  split; [exact P|]. split; [exact P|].
  split; [intros ->; split; reflexivity|].
  split; [reflexivity|]. split; [reflexivity|].
  destruct P as [P|[P|[P|[m P]]]]; rewrite P; cbn;
    solve [ split; [now exists 0 | now exists 10]
          | split; now exists m ].
Qed.

(** X11, at an emptied field. *)
Lemma number_fields_hold_integers_witness :
  State.quantity (Page.state (Page.onChange_quantity "" Sample.ui0))
  = JS.Num 0.
Proof.
  refine (proj1 (proj1 (proj2 (proj2
    (number_fields_hold_integers "" Sample.ui0 Sample.alice))) _)).
  reflexivity.
Defined.

(* ================================================================== *)
(** ** More on the search filter *)
(* ================================================================== *)

Section MoreFilter.

Lemma string_app_assoc (a b c : string) :
  ((a ++ b) ++ c = a ++ (b ++ c))%string.
Proof. induction a as [|x a IH]; cbn; [reflexivity | now rewrite IH]. Qed.

Lemma occurs_in_trans (q q' s : string) :
  occurs_in q q' -> occurs_in q' s -> occurs_in q s.
Proof.
  intros (pre & post & ->) (pre' & post' & ->).
  exists (pre' ++ pre)%string, (post ++ post')%string.
  now rewrite !string_app_assoc.
Qed.

Lemma search_hit_narrows (q q' : string) (it : InventoryItem) :
  occurs_in q q' -> search_hit q' it -> search_hit q it.
Proof.
  intros Hq (f & Hin & Hocc). exists f. split; [exact Hin|].
  now apply (occurs_in_trans q q').
Qed.

Lemma filter_filter_implied {X} (p q : X -> bool) (l : list X) :
  (forall x, p x = true -> q x = true) ->
  filter p (filter q l) = filter p l.
Proof.
  intros H. induction l as [|x l IH]; cbn; [reflexivity|].
  destruct (q x) eqn:Eq; cbn.
  - now rewrite IH.
  - destruct (p x) eqn:Ep; [|exact IH].
    apply H in Ep. congruence.
Qed.

Lemma filter_all {X} (l : list X) : filter (fun _ => true) l = l.
Proof. induction l; cbn; congruence. Qed.

Lemma isWhiteSpace_lowerChar (c : ascii) :
  JS.isWhiteSpace (JS.lowerChar c) = JS.isWhiteSpace c.
Proof. destruct c as [[] [] [] [] [] [] [] []]; reflexivity. Qed.

Lemma lowerChar_idem (c : ascii) :
  JS.lowerChar (JS.lowerChar c) = JS.lowerChar c.
Proof. destruct c as [[] [] [] [] [] [] [] []]; reflexivity. Qed.

Lemma toLowerCase_idem (s : string) :
  JS.toLowerCase (JS.toLowerCase s) = JS.toLowerCase s.
Proof.
  induction s as [|c s IH]; cbn; [reflexivity|].
  now rewrite lowerChar_idem, IH.
Qed.

Lemma trimStart_toLowerCase (s : string) :
  JS.trimStart (JS.toLowerCase s) = JS.toLowerCase (JS.trimStart s).
Proof.
  induction s as [|c s IH]; cbn; [reflexivity|].
  rewrite isWhiteSpace_lowerChar.
  now destruct (JS.isWhiteSpace c).
Qed.

Lemma trimEnd_toLowerCase (s : string) :
  JS.trimEnd (JS.toLowerCase s) = JS.toLowerCase (JS.trimEnd s).
Proof.
  induction s as [|c s IH]; cbn; [reflexivity|].
  rewrite IH, isWhiteSpace_lowerChar.
  destruct (JS.trimEnd s); cbn; [|reflexivity].
  now destruct (JS.isWhiteSpace c).
Qed.

Lemma trim_toLowerCase (s : string) :
  JS.trim (JS.toLowerCase s) = JS.toLowerCase (JS.trim s).
Proof.
  unfold JS.trim. now rewrite trimStart_toLowerCase, trimEnd_toLowerCase.
Qed.

Lemma trimEnd_cons (c : ascii) (s : string) :
  JS.trimEnd (String c s)
  = match JS.trimEnd s with
    | EmptyString => if JS.isWhiteSpace c then EmptyString
                     else String c EmptyString
    | t => String c t
    end.
Proof. reflexivity. Qed.

Lemma trimEnd_idem (s : string) : JS.trimEnd (JS.trimEnd s) = JS.trimEnd s.
Proof.
  induction s as [|c s IH]; [reflexivity|].
  rewrite trimEnd_cons.
  destruct (JS.trimEnd s) as [|d t] eqn:E.
  - destruct (JS.isWhiteSpace c) eqn:W; [reflexivity|].
    rewrite trimEnd_cons. cbn. now rewrite W.
  - rewrite trimEnd_cons, IH. reflexivity.
Qed.

Lemma trimStart_shape (s : string) :
  JS.trimStart s = ""
  \/ exists c r, JS.trimStart s = String c r /\ JS.isWhiteSpace c = false.
Proof.
  induction s as [|c s IH]; cbn; [now left|].
  destruct (JS.isWhiteSpace c) eqn:W; [exact IH|].
  right. now exists c, s.
Qed.

Lemma trimEnd_head (c : ascii) (r : string) :
  JS.isWhiteSpace c = false ->
  exists r', JS.trimEnd (String c r) = String c r'.
Proof.
  intros W. cbn. destruct (JS.trimEnd r).
  - rewrite W. now exists "".
  - eexists. reflexivity.
Qed.

Lemma trim_idem (s : string) : JS.trim (JS.trim s) = JS.trim s.
Proof.
  unfold JS.trim.
  destruct (trimStart_shape s) as [E|(c & r & E & W)]; rewrite E.
  - reflexivity.
  - destruct (trimEnd_head c r W) as [r' E']. rewrite E'.
    cbn [JS.trimStart]. rewrite W. rewrite <- E'. apply trimEnd_idem.
Qed.

End MoreFilter.

(** X12. Refining a search only narrows the result. If the normalised
    (trimmed, lower-cased) form of one search string occurs in that of
    another, every item the second finds the first finds too, and the
    second result is the first one filtered, so in the same order. *)
Theorem search_narrows (items : list InventoryItem) (s1 s2 : string) :
  occurs_in (JS.toLowerCase (JS.trim s1)) (JS.toLowerCase (JS.trim s2)) ->
  (forall it, In it (filtered (Some items) s2) ->
              In it (filtered (Some items) s1))
  /\ exists keep,
       filtered (Some items) s2 = filter keep (filtered (Some items) s1).
Proof.
  intros Hocc.
  assert (K : exists keep,
             filtered (Some items) s2
             = filter keep (filtered (Some items) s1)).
  { unfold filtered.
    set (q1 := JS.toLowerCase (JS.trim s1)) in *.
    set (q2 := JS.toLowerCase (JS.trim s2)) in *.
    destruct (JS.truthy q1) eqn:T1; cbn [negb].
    - apply truthy_true in T1.
      assert (T2 : q2 <> "") by now apply (occurs_in_nonempty q1).
      apply truthy_true in T2. rewrite T2. cbn [negb].
      exists (matches q2). symmetry. apply filter_filter_implied.
      intros it H. apply truthy_true in T2.
      apply matches_iff in H; [|exact T2]. apply matches_iff; [exact T1|].
      now apply (search_hit_narrows q1 q2).
    - destruct (JS.truthy q2); cbn [negb].
      + now exists (matches q2).
      + exists (fun _ => true). symmetry. apply filter_all. }
  split; [|exact K]. destruct K as [keep ->].
  intros it H. now apply filter_In in H.
Qed.

(** X12, at the sample items: "sh" then "shirt". *)
Lemma search_narrows_witness :
  In Sample.blue_shirt
    (filtered (Some [Sample.blue_shirt; Sample.red_hat]) "sh").
Proof.
  refine (proj1 (search_narrows [Sample.blue_shirt; Sample.red_hat]
                   "sh" "shirt" _) Sample.blue_shirt _).
  - exists "", "irt". reflexivity.
  - cbn. now left.
Defined.

(** X13. The search does not depend on how the query is typed: a search
    string and its normalised form (trimmed, lower-cased) give the same
    result, and normalising is idempotent. *)
Theorem search_is_normalised (items : option (list InventoryItem))
  (s : string) :
  let norm s := JS.toLowerCase (JS.trim s) in
  norm (norm s) = norm s
  /\ filtered items (norm s) = filtered items s.
Proof.
  intros norm. subst norm. cbv beta.
  assert (N : JS.toLowerCase (JS.trim (JS.toLowerCase (JS.trim s)))
              = JS.toLowerCase (JS.trim s)).
  { now rewrite trim_toLowerCase, toLowerCase_idem, trim_idem. }
  split; [exact N|]. unfold filtered. now rewrite N.
Qed.

(* ================================================================== *)
(** ** The page's metadata effect *)
(* ================================================================== *)

Section Metadata.

Lemma get_set_same (k v : string) (attrs : list (string * string)) :
  Dom.get k (Dom.set k v attrs) = Some v.
Proof.
  induction attrs as [|[k' v'] rest IH]; cbn.
  - now rewrite String.eqb_refl.
  - destruct (String.eqb k' k) eqn:E; cbn; now rewrite E.
Qed.

Lemma get_set_other (k k' v : string) (attrs : list (string * string)) :
  k <> k' -> Dom.get k (Dom.set k' v attrs) = Dom.get k attrs.
Proof.
  intros Hk. induction attrs as [|[k0 v0] rest IH]; cbn.
  - replace (String.eqb k' k) with false; [reflexivity|].
    symmetry. apply String.eqb_neq. congruence.
  - destruct (String.eqb k0 k') eqn:E; cbn.
    + apply String.eqb_eq in E. subst k0.
      replace (String.eqb k' k) with false; [reflexivity|].
      symmetry. apply String.eqb_neq. congruence.
    + now rewrite IH.
Qed.

Lemma set_set (k v : string) (attrs : list (string * string)) :
  Dom.set k v (Dom.set k v attrs) = Dom.set k v attrs.
Proof.
  induction attrs as [|[k' v'] rest IH]; cbn.
  - now rewrite String.eqb_refl.
  - destruct (String.eqb k' k) eqn:E; cbn; rewrite E; [reflexivity|].
    now rewrite IH.
Qed.

Lemma setAttribute_idem (k v : string) (e : Dom.element) :
  Dom.setAttribute k v (Dom.setAttribute k v e) = Dom.setAttribute k v e.
Proof. unfold Dom.setAttribute. cbn. now rewrite set_set. Qed.

Lemma find_app {X} (p : X -> bool) (a b : list X) :
  find p (a ++ b)
  = match find p a with Some x => Some x | None => find p b end.
Proof.
  induction a as [|x a IH]; cbn; [reflexivity|].
  now destruct (p x).
Qed.

Variables (sel : Dom.element -> bool) (create : Dom.element)
  (change : Dom.element -> Dom.element).

Hypothesis sel_change : forall x, sel (change x) = sel x.
Hypothesis sel_create : sel create = true.

Lemma update_first_None (l : list Dom.element) :
  Dom.update_first sel change l = None -> find sel l = None.
Proof.
  induction l as [|x l IH]; cbn; [reflexivity|].
  destruct (sel x); [discriminate|].
  destruct (Dom.update_first sel change l); [discriminate|].
  intros _. now apply IH.
Qed.

Lemma update_first_Some (l l' : list Dom.element) :
  Dom.update_first sel change l = Some l' ->
  exists x, find sel l = Some x /\ find sel l' = Some (change x).
Proof.
  revert l'. induction l as [|x l IH]; cbn; [discriminate|].
  intros l'. destruct (sel x) eqn:E.
  - intros [= <-]. exists x. cbn. now rewrite sel_change, E.
  - destruct (Dom.update_first sel change l) as [l0|]; [|discriminate].
    intros [= <-]. destruct (IH l0 eq_refl) as (y & H1 & H2).
    exists y. cbn. now rewrite E.
Qed.

(** After the step, the first match is the changed element: the one
    that was the first match, or the created one. *)
Lemma query_or_append_query (d : Dom.document) :
  exists x,
    Dom.querySelector sel (Dom.query_or_append sel create change d)
    = Some (change x)
    /\ (Dom.querySelector sel d = Some x
        \/ Dom.querySelector sel d = None /\ x = create).
Proof.
  unfold Dom.query_or_append, Dom.querySelector.
  destruct (Dom.update_first sel change (Dom.head d)) as [h|] eqn:Eh.
  - apply update_first_Some in Eh as (x & H1 & H2). exists x. cbn.
    rewrite !find_app, H1, H2. auto.
  - apply update_first_None in Eh.
    destruct (Dom.update_first sel change (Dom.body d)) as [b|] eqn:Eb.
    + apply update_first_Some in Eb as (x & H1 & H2). exists x. cbn.
      rewrite !find_app, Eh, H1, H2. auto.
    + apply update_first_None in Eb. exists create. cbn.
      rewrite !find_app, Eh, Eb. cbn.
      rewrite sel_change, sel_create. auto.
Qed.

Lemma update_first_fixed (l : list Dom.element) (y : Dom.element) :
  find sel l = Some y -> change y = y ->
  Dom.update_first sel change l = Some l.
Proof.
  intros Hf Hy. induction l as [|x l IH]; cbn in *; [discriminate|].
  destruct (sel x).
  - injection Hf as ->. now rewrite Hy.
  - now rewrite (IH Hf).
Qed.

Lemma find_None_update_first (l : list Dom.element) :
  find sel l = None -> Dom.update_first sel change l = None.
Proof.
  induction l as [|x l IH]; cbn; [reflexivity|].
  destruct (sel x); [discriminate|]. intros H. now rewrite (IH H).
Qed.

(** A document whose first match is already as the change leaves it is
    not modified by the step. *)
Lemma query_or_append_fixed (d : Dom.document) (y : Dom.element) :
  Dom.querySelector sel d = Some y -> change y = y ->
  Dom.query_or_append sel create change d = d.
Proof.
  unfold Dom.querySelector, Dom.query_or_append. rewrite find_app.
  intros Hf Hy. destruct (find sel (Dom.head d)) as [x|] eqn:Eh.
  - injection Hf as ->. rewrite (update_first_fixed _ _ Eh Hy).
    now destruct d.
  - rewrite (find_None_update_first _ Eh).
    rewrite (update_first_fixed _ _ Hf Hy). now destruct d.
Qed.

Lemma query_or_append_title (d : Dom.document) :
  Dom.title (Dom.query_or_append sel create change d) = Dom.title d.
Proof.
  unfold Dom.query_or_append.
  destruct (Dom.update_first _ _ (Dom.head d)); [reflexivity|].
  now destruct (Dom.update_first _ _ (Dom.body d)).
Qed.

(** The step leaves alone what another selector finds, when nothing it
    matches, changes or creates is matched by that selector. *)
Lemma query_or_append_other (sel' : Dom.element -> bool) (d : Dom.document) :
  (forall x, sel x = true -> sel' x = false /\ sel' (change x) = false) ->
  sel' (change create) = false ->
  Dom.querySelector sel' (Dom.query_or_append sel create change d)
  = Dom.querySelector sel' d.
Proof.
  intros Hdis Hcreate.
  assert (L : forall l l', Dom.update_first sel change l = Some l' ->
                           find sel' l' = find sel' l).
  { induction l as [|x l IH]; cbn; [discriminate|].
    intros l'. destruct (sel x) eqn:E.
    - intros [= <-]. cbn. destruct (Hdis x E) as [-> ->]. reflexivity.
    - destruct (Dom.update_first sel change l) as [l0|]; [|discriminate].
      intros [= <-]. cbn. now rewrite (IH l0 eq_refl). }
  unfold Dom.query_or_append, Dom.querySelector.
  destruct (Dom.update_first sel change (Dom.head d)) as [h|] eqn:Eh.
  - cbn. rewrite !find_app. now rewrite (L _ _ Eh).
  - destruct (Dom.update_first sel change (Dom.body d)) as [b|] eqn:Eb.
    + cbn. rewrite !find_app. now rewrite (L _ _ Eb).
    + cbn. rewrite !find_app. cbn. rewrite Hcreate.
      now destruct (find sel' (Dom.head d)).
Qed.

End Metadata.

Section MetadataTags.

Lemma meta_named_tag (n : string) (x : Dom.element) :
  Dom.meta_named n x = true -> Dom.tagName x = "meta".
Proof.
  unfold Dom.meta_named. intros H. apply andb_true_iff in H as [H _].
  now apply String.eqb_eq.
Qed.

Lemma link_canonical_tag (x : Dom.element) :
  Dom.link_canonical x = true -> Dom.tagName x = "link".
Proof.
  unfold Dom.link_canonical. intros H. apply andb_true_iff in H as [H _].
  now apply String.eqb_eq.
Qed.

Lemma meta_is_no_link (x : Dom.element) :
  Dom.tagName x = "meta" -> Dom.link_canonical x = false.
Proof. unfold Dom.link_canonical. now intros ->. Qed.

Lemma link_is_no_meta (n : string) (x : Dom.element) :
  Dom.tagName x = "link" -> Dom.meta_named n x = false.
Proof. unfold Dom.meta_named. now intros ->. Qed.

Lemma meta_named_content (n c : string) (x : Dom.element) :
  Dom.meta_named n (Dom.setAttribute "content" c x) = Dom.meta_named n x.
Proof.
  unfold Dom.meta_named, Dom.getAttribute. cbn.
  now rewrite get_set_other by discriminate.
Qed.

Lemma link_canonical_href (h : string) (x : Dom.element) :
  Dom.link_canonical (Dom.setAttribute "href" h x) = Dom.link_canonical x.
Proof.
  unfold Dom.link_canonical, Dom.getAttribute. cbn.
  now rewrite get_set_other by discriminate.
Qed.

Lemma meta_named_create (n : string) :
  Dom.meta_named n (Dom.setAttribute "name" n (Dom.createElement "meta"))
  = true.
Proof. unfold Dom.meta_named. cbn. apply String.eqb_refl. Qed.

Lemma setCanonical_keeps_meta (n h : string) (d : Dom.document) :
  Dom.querySelector (Dom.meta_named n) (Seo.setCanonical h d)
  = Dom.querySelector (Dom.meta_named n) d.
Proof.
  apply query_or_append_other.
  - intros x Hx. apply link_canonical_tag in Hx.
    split; now apply link_is_no_meta.
  - now apply link_is_no_meta.
Qed.

Lemma setMeta_keeps_link (n c : string) (d : Dom.document) :
  Dom.querySelector Dom.link_canonical (Seo.setMeta n c d)
  = Dom.querySelector Dom.link_canonical d.
Proof.
  apply query_or_append_other.
  - intros x Hx. apply meta_named_tag in Hx.
    split; now apply meta_is_no_link.
  - now apply meta_is_no_link.
Qed.

Lemma update_first_length (sel : Dom.element -> bool)
  (f : Dom.element -> Dom.element) (l l' : list Dom.element) :
  Dom.update_first sel f l = Some l' -> List.length l' = List.length l.
Proof.
  revert l'. induction l as [|x l IH]; cbn; [discriminate|].
  intros l'. destruct (sel x); [now intros [= <-]|].
  destruct (Dom.update_first sel f l) as [l0|]; [|discriminate].
  intros [= <-]. cbn. now rewrite (IH l0 eq_refl).
Qed.

(** The step adds one element to [head] when there was no match, and
    none otherwise; it never adds to [body]. *)
Lemma query_or_append_length (sel : Dom.element -> bool)
  (create : Dom.element) (change : Dom.element -> Dom.element)
  (d : Dom.document) :
  (forall x, sel (change x) = sel x) ->
  let d' := Dom.query_or_append sel create change d in
  List.length (Dom.body d') = List.length (Dom.body d)
  /\ List.length (Dom.head d')
     = (List.length (Dom.head d)
        + match Dom.querySelector sel d with Some _ => 0 | None => 1 end)%nat.
Proof.
  intros Hsel. unfold Dom.query_or_append, Dom.querySelector.
  rewrite find_app.
  destruct (Dom.update_first sel change (Dom.head d)) as [h|] eqn:Eh.
  - pose proof (update_first_length _ _ _ _ Eh) as L.
    apply (update_first_Some sel change Hsel) in Eh as (x & -> & _).
    cbn. split; [reflexivity | lia].
  - apply update_first_None in Eh. rewrite Eh.
    destruct (Dom.update_first sel change (Dom.body d)) as [b|] eqn:Eb.
    + pose proof (update_first_length _ _ _ _ Eb) as L.
      apply (update_first_Some sel change Hsel) in Eb as (x & -> & _).
      cbn. split; [exact L | lia].
    + apply update_first_None in Eb. rewrite Eb. cbn.
      split; [reflexivity|]. rewrite length_app. cbn. lia.
Qed.

End MetadataTags.

(** What the document holds after the effect. *)
Lemma effect_values (origin : string) (d : Dom.document) :
  let d' := Seo.effect origin d in
  Dom.title d' = Seo.page_title
  /\ (exists m,
        Dom.querySelector (Dom.meta_named "description") d' = Some m
        /\ Dom.getAttribute "content" m = Some Seo.page_description)
  /\ (exists l,
        Dom.querySelector Dom.link_canonical d' = Some l
        /\ Dom.getAttribute "href" l = Some (origin ++ "/inventory")%string).
Proof.
  intros d'. subst d'. unfold Seo.effect. cbv zeta.
  split; [|split].
  - unfold Seo.setCanonical, Seo.setMeta.
    now rewrite !query_or_append_title.
  - rewrite setCanonical_keeps_meta. unfold Seo.setMeta.
    destruct (query_or_append_query (Dom.meta_named "description")
                (Dom.setAttribute "name" "description"
                   (Dom.createElement "meta"))
                (Dom.setAttribute "content" Seo.page_description)
                (meta_named_content "description" Seo.page_description)
                (meta_named_create "description")
                (Dom.mkDocument Seo.page_title (Dom.head d) (Dom.body d)))
      as (x & -> & _).
    eexists. split; [reflexivity|]. apply get_set_same.
  - unfold Seo.setCanonical.
    destruct (query_or_append_query Dom.link_canonical
                (Dom.setAttribute "rel" "canonical"
                   (Dom.createElement "link"))
                (Dom.setAttribute "href" (origin ++ "/inventory")%string)
                (link_canonical_href (origin ++ "/inventory")%string)
                eq_refl
                (Seo.setMeta "description" Seo.page_description
                   (Dom.mkDocument Seo.page_title (Dom.head d) (Dom.body d))))
      as (x & -> & _).
    eexists. split; [reflexivity|]. apply get_set_same.
Qed.

(** X14. After the metadata effect the document has the page's title, its
    first [meta[name="description"]] carries the page's description, and
    its first [link[rel=canonical]] points at the origin followed by
    "/inventory" -- whether these elements were there before or not. *)
Theorem metadata_effect_sets_values (origin : string) (d : Dom.document) :
  let d' := Seo.effect origin d in
  Dom.title d' = Seo.page_title
  /\ (exists m,
        Dom.querySelector (Dom.meta_named "description") d' = Some m
        /\ Dom.getAttribute "content" m = Some Seo.page_description)
  /\ (exists l,
        Dom.querySelector Dom.link_canonical d' = Some l
        /\ Dom.getAttribute "href" l = Some (origin ++ "/inventory")%string).
Proof. exact (effect_values origin d). Qed.

(** X15. The metadata effect is idempotent: run again on the document it
    produced (a remount, a second mount in development), it changes
    nothing, so no tag is ever duplicated. *)
Theorem metadata_effect_idempotent (origin : string) (d : Dom.document) :
  Seo.effect origin (Seo.effect origin d) = Seo.effect origin d.
Proof.
  set (d' := Seo.effect origin d).
  destruct (effect_values origin d) as (Ht & Hm & Hl).
  fold d' in Ht, Hm, Hl.
  destruct Hm as (m & Hm & Hc). destruct Hl as (l & Hl & Hh).
  unfold Seo.effect at 1. cbv zeta.
  assert (E1 : Dom.mkDocument Seo.page_title (Dom.head d') (Dom.body d') = d').
  { rewrite <- Ht. now destruct d'. }
  rewrite E1.
  assert (Fix : forall k v (e : Dom.element),
             Dom.getAttribute k e = Some v -> Dom.setAttribute k v e = e).
  { intros k v [tag attrs]. unfold Dom.getAttribute, Dom.setAttribute. cbn.
    intros H. f_equal. induction attrs as [|[k' v'] rest IH]; cbn in *;
      [discriminate|].
    destruct (String.eqb k' k); [now injection H as -> | now rewrite IH]. }
  assert (E2 : Seo.setMeta "description" Seo.page_description d' = d').
  { unfold Seo.setMeta. apply (query_or_append_fixed _ _ _ _ m Hm).
    now apply Fix. }
  rewrite E2. unfold Seo.setCanonical.
  apply (query_or_append_fixed _ _ _ _ l Hl). now apply Fix.
Qed.

(** X16. The metadata effect adds only what is missing: nothing to
    [body], and to [head] one element for the description if the document
    had none, and one for the canonical link if it had none. *)
Theorem metadata_effect_adds_only_missing (origin : string)
  (d : Dom.document) :
  let d' := Seo.effect origin d in
  let missing (sel : Dom.element -> bool) :=
    match Dom.querySelector sel d with Some _ => 0%nat | None => 1%nat end in
  List.length (Dom.body d') = List.length (Dom.body d)
  /\ List.length (Dom.head d')
     = (List.length (Dom.head d) + missing (Dom.meta_named "description")
        + missing Dom.link_canonical)%nat.
Proof.
  intros d' missing. subst d' missing. unfold Seo.effect. cbv zeta.
  set (d1 := Dom.mkDocument Seo.page_title (Dom.head d) (Dom.body d)).
  pose proof (query_or_append_length (Dom.meta_named "description")
                (Dom.setAttribute "name" "description"
                   (Dom.createElement "meta"))
                (Dom.setAttribute "content" Seo.page_description) d1
                (meta_named_content "description" Seo.page_description))
    as [Mb Mh].
  fold (Seo.setMeta "description" Seo.page_description d1) in Mb, Mh.
  pose proof (query_or_append_length Dom.link_canonical
                (Dom.setAttribute "rel" "canonical"
                   (Dom.createElement "link"))
                (Dom.setAttribute "href" (origin ++ "/inventory")%string)
                (Seo.setMeta "description" Seo.page_description d1)
                (link_canonical_href (origin ++ "/inventory")%string))
    as [Cb Ch].
  fold (Seo.setCanonical (origin ++ "/inventory")%string
          (Seo.setMeta "description" Seo.page_description d1)) in Cb, Ch.
  rewrite setMeta_keeps_link in Ch.
  split.
  - now rewrite Cb, Mb.
  - rewrite Ch, Mh. reflexivity.
Qed.

(** X4, at the sample table: Alice deletes her blue shirts. *)
Lemma deleteItem_removes_witness :
  ~ In Sample.blue_shirt
      (Supabase.table
         (snd (Page.deleteItem_mutationFn (Some Sample.alice) Sample.srv
                 "item-1" Sample.stocked))).
Proof.
  intros H.
  apply (proj1 (proj1 (proj2
    (deleteItem_removes (Some Sample.alice) Sample.srv Sample.srv'
       "item-1" Sample.stocked)) Sample.blue_shirt)) in H.
  destruct H as [_ H]. apply H. split; reflexivity.
Defined.

(* ================================================================== *)
(** ** The items card *)
(* ================================================================== *)

Lemma filtered_cases (items : list InventoryItem) (search : string) :
  (whitespace_only search = true -> filtered (Some items) search = items)
  /\ (whitespace_only search = false ->
      filtered (Some items) search
      = filter (matches (JS.toLowerCase (JS.trim search))) items
      /\ JS.toLowerCase (JS.trim search) <> "").
Proof.
  unfold filtered.
  destruct (JS.truthy (JS.toLowerCase (JS.trim search))) eqn:T; cbn [negb].
  - split.
    + intros W. apply search_query_empty in W. congruence.
    + intros _. split; [reflexivity|]. now apply truthy_true.
  - split; [reflexivity|]. intros W.
    apply search_query_empty in T. congruence.
Qed.

(** X17. When the items card says "No items found". Once the query is no
    longer loading, the card shows that line exactly when the filtered
    list is empty, and rows (never an empty table) otherwise. So it shows
    it whenever there is no data at all (the query is disabled or has
    failed); with a blank search, exactly when the list is empty; and
    with any other search, exactly when no item has a non-null field
    among name, sku, category, description containing the query. *)
Theorem no_items_found (items : list InventoryItem) (search : string) :
  let q := JS.toLowerCase (JS.trim search) in
  Page.items_card false None search = Page.No_items_found
  /\ (forall its, Page.items_card false (Some items) search = Page.Rows its ->
                  its <> [] /\ its = filtered (Some items) search)
  /\ (whitespace_only search = true ->
      (Page.items_card false (Some items) search = Page.No_items_found
       <-> items = []))
  /\ (whitespace_only search = false ->
      (Page.items_card false (Some items) search = Page.No_items_found
       <-> forall it, In it items -> ~ search_hit q it)).
Proof.
  intros q. unfold Page.items_card.
  split; [reflexivity|]. split; [|split].
  - intros its. destruct (filtered (Some items) search) as [|x l];
      [discriminate|].
    intros [= <-]. split; [discriminate | reflexivity].
  - intros W. rewrite (proj1 (filtered_cases items search) W).
    destruct items; split; try discriminate; reflexivity.
  - intros W. destruct (proj2 (filtered_cases items search) W) as [E Hq].
    fold q in E, Hq. rewrite E.
    destruct (filter (matches q) items) as [|i l] eqn:F.
    + split; [|reflexivity]. intros _ it Hit Hhit.
      apply (matches_iff q it Hq) in Hhit.
      assert (H : In it (filter (matches q) items)) by now apply filter_In.
      rewrite F in H. destruct H.
    + split; [discriminate|]. intros H. exfalso.
      assert (Hi : In i (filter (matches q) items)) by (rewrite F; now left).
      apply filter_In in Hi as [Hi Hm].
      apply (matches_iff q i Hq) in Hm. now apply (H i Hi).
Qed.

(** X17, at the blue shirt and a search that finds nothing. *)
Lemma no_items_found_witness :
  Page.items_card false (Some [Sample.blue_shirt]) "zzz" = Page.No_items_found.
Proof.
  refine (proj2 (proj2 (proj2 (proj2
    (no_items_found [Sample.blue_shirt] "zzz"))) _) _).
  - reflexivity.
  - intros it [<-|[]] (f & Hin & Hocc).
    apply includes_iff in Hocc.
    destruct Hin as [E|[E|[E|[E|[]]]]]; try discriminate E;
      injection E as <-; discriminate Hocc.
Defined.

(* ================================================================== *)
(** ** What the page writes, and reads back *)
(* ================================================================== *)

Lemma or_null_trim_clean (s : string) :
  JS.or_null (JS.trim s) = None
  \/ exists t, JS.or_null (JS.trim s) = Some t /\ t <> "" /\ JS.trim t = t.
Proof.
  rewrite or_null_trim. destruct (whitespace_only s) eqn:W; [now left|].
  right. exists (JS.trim s). split; [reflexivity|]. split.
  - intros E. apply trim_empty in E. congruence.
  - apply trim_idem.
Qed.

(** X18. Every row the page creates is clean: its name is not empty and
    has no blanks around it; each of description, sku and category is
    either null or a non-empty text without blanks around it (never an
    empty string); and it is created and updated at the same instant. *)
Theorem created_row_is_clean (u : User.t) (srv : Supabase.server)
  (st : State.t) (b : Supabase.backend) :
  let run := Page.addItem_mutationFn (Some u) srv st b in
  let clean (f : option string) :=
    f = None \/ exists t, f = Some t /\ t <> "" /\ JS.trim t = t in
  fst run = inr tt ->
  exists r,
    Supabase.table (snd run) = Supabase.table b ++ [r]
    /\ name r <> "" /\ JS.trim (name r) = name r
    /\ clean (description r) /\ clean (sku r) /\ clean (category r)
    /\ created_at r = Supabase.now srv /\ updated_at r = Supabase.now srv.
Proof.
  intros run clean. subst run clean. cbv beta.
  rewrite addItem_mutationFn_run.
  destruct (JS.truthy (JS.trim (State.name st))) eqn:T; cbn [negb];
    [|discriminate].
  cbv zeta. destruct (Pg.insert _ _ _) as [e|tbl] eqn:I; [discriminate|].
  intros _. apply insert_inr_row in I as (q & p & th & -> & _ & _).
  cbn [snd Supabase.table Supabase.received].
  eexists. split; [reflexivity|].
  cbn [name description sku category created_at updated_at
       Pg.Body.name Pg.Body.description Pg.Body.sku Pg.Body.category
       Payload.to_json Page.addItem_payload Payload.name Payload.description
       Payload.sku Payload.category Pg.now Supabase.context_of].
  split; [now apply truthy_true|]. split; [apply trim_idem|].
  split; [apply or_null_trim_clean|]. split; [apply or_null_trim_clean|].
  split; [apply or_null_trim_clean|]. split; reflexivity.
Qed.

(** X18, at the sample form. *)
Lemma created_row_is_clean_witness :
  exists r,
    Supabase.table
      (snd (Page.addItem_mutationFn (Some Sample.alice) Sample.srv
              Sample.form_19_999 Sample.empty)) = Supabase.table Sample.empty ++ [r]
    /\ name r <> "".
Proof.
  destruct (created_row_is_clean Sample.alice Sample.srv Sample.form_19_999
              Sample.empty) as (r & H1 & H2 & _); [vm_compute; reflexivity|].
  exists r. split; assumption.
Defined.

(** X19. A quantity button composes with List. For a row of the table
    that is the caller's, "Decrease", and "Increase" below the column's
    maximum, make the caller's next list contain that row with the new
    quantity (and the server's time as [updated_at]); every row with
    another id is listed as before. *)
Theorem quantity_button_then_list (u : User.t) (srv srv' : Supabase.server)
  (it : InventoryItem) (w : Page.ui * Supabase.backend) :
  In it (Supabase.table (snd w)) ->
  user_id it = User.id u ->
  int4 (quantity it) ->
  let listed b r :=
    exists l, fst (Page.items_queryFn (Some u) srv' b) = inr l /\ In r l in
  let then_ z :=
    mkItem (id it) (user_id it) (name it) (description it) (sku it)
      (category it) z (unit_price it) (low_stock_threshold it)
      (created_at it) (Supabase.now srv) in
  let after_dec := snd (Page.onClick_decrease (Some u) srv it w) in
  let after_inc := snd (Page.onClick_increase (Some u) srv it w) in
  listed after_dec (then_ (Z.max 0 (quantity it - 1)))
  /\ (forall r, id r <> id it -> (listed after_dec r <-> listed (snd w) r))
  /\ (quantity it < 2147483647 ->
      listed after_inc (then_ (quantity it + 1))
      /\ (forall r, id r <> id it ->
                    (listed after_inc r <-> listed (snd w) r))).
Proof.
  intros Hin Hown [Hlo Hhi] listed then_ after_dec after_inc.
  assert (L : forall b r, listed b r <->
                In r (Supabase.table b) /\ user_id r = User.id u).
  { intros b r. unfold listed. rewrite items_queryFn_run. cbn [fst]. split.
    - intros (l & [= <-] & H).
      apply (Permutation_in _ (order_by_perm _)) in H.
      apply visible_In in H as (H1 & H2 & _).
      apply owner_is_Some in H2. auto.
    - intros [H1 H2]. eexists. split; [reflexivity|].
      apply (Permutation_in _ (Permutation_sym (order_by_perm _))).
      apply visible_In. split; [exact H1|]. split; [|reflexivity].
      now apply owner_is_Some. }
  assert (T : forall z, int4 z ->
            Supabase.table
              (snd (Page.updateQuantity_mutationFn (Some u) srv (id it)
                      (JS.Num (inject_Z z)) (snd w)))
            = map (written (Some (User.id u)) (id it) z (Supabase.now srv))
                (Supabase.table (snd w))).
  { intros z Hz. rewrite table_after_updateQuantity.
    now rewrite (int4_in_int4 z Hz). }
  assert (Wit : forall z,
            written (Some (User.id u)) (id it) z (Supabase.now srv) it
            = then_ z).
  { intros z. unfold written, Supabase.eq_id, Pg.owner_is.
    rewrite Hown, !String.eqb_refl. cbn [andb]. subst then_. cbv beta.
    now rewrite Hown. }
  assert (Wother : forall z r, id r <> id it ->
            written (Some (User.id u)) (id it) z (Supabase.now srv) r = r).
  { intros z r Hr. unfold written, Supabase.eq_id.
    replace (String.eqb (id r) (id it)) with false;
      [now rewrite andb_false_r|].
    symmetry. now apply String.eqb_neq. }
  assert (Main : forall z, int4 z ->
            let b' := snd (Page.updateQuantity_mutationFn (Some u) srv
                             (id it) (JS.Num (inject_Z z)) (snd w)) in
            listed b' (then_ z)
            /\ (forall r, id r <> id it -> (listed b' r <-> listed (snd w) r))).
  { intros z Hz b'. subst b'. split.
    - apply L. rewrite (T z Hz). split; [|exact Hown].
      rewrite <- Wit. now apply in_map.
    - intros r Hr. rewrite !L, (T z Hz). split.
      + intros [H Hu]. split; [|exact Hu].
        apply in_map_iff in H as (r0 & E & H0).
        destruct (String.eqb_spec (id r0) (id it)) as [Eid|Nid].
        * exfalso. apply Hr. rewrite <- E. unfold written.
          destruct (_ && _); cbn; congruence.
        * rewrite (Wother z r0 Nid) in E. now subst r0.
      + intros [H Hu]. split; [|exact Hu].
        rewrite <- (Wother z r Hr). now apply in_map. }
  subst after_dec after_inc.
  unfold Page.onClick_decrease, Page.onClick_increase,
    Page.updateQuantity_mutate, decrease_newQty, increase_newQty,
    JS.Math_max.
  rewrite !snd_mutate.
  destruct (Main (Z.max 0 (quantity it - 1))) as [M1 M2];
    [unfold int4; lia|].
  split; [exact M1|]. split; [exact M2|].
  intros Hmax. apply Main. unfold int4. lia.
Qed.

(** X19, at the sample table: Alice decreases her blue shirts. *)
Lemma quantity_button_then_list_witness :
  exists l,
    fst (Page.items_queryFn (Some Sample.alice) Sample.srv'
           (snd (Page.onClick_decrease (Some Sample.alice) Sample.srv
                   Sample.blue_shirt (Sample.ui0, Sample.stocked)))) = inr l
    /\ In (mkItem "item-1" "user-a" "Blue Shirt" None (Some "TS-1") None
             2 (Some 1999) (Some 10) 1000 3000) l.
Proof.
  refine (proj1 (quantity_button_then_list Sample.alice Sample.srv
                   Sample.srv' Sample.blue_shirt (Sample.ui0, Sample.stocked)
                   _ _ _)).
  - cbn. tauto.
  - reflexivity.
  - unfold int4. cbn. lia.
Defined.
